(** * Protein dataset registry: a shallow embedding and its properties

    The development embeds the two modules of the project,

    - [src/data/sources.py]: the data-source abstraction and its PDB
      implementation ([get_structure], [get_function], [validate_structure],
      [get_data_source]);
    - [src/data/dataset.py]: the registry ([load_registry], [save_registry],
      [add_protein], [get_valid_proteins], [generate_summary_report]).

    Python dictionaries with a fixed set of keys are records (a key that may
    be missing is an [option] field), the registry dictionary is a finite map
    keyed by strings, floats are IEEE-754 values ([spec_float]), integers are
    [Z].  Code that raises, reads the clock, the file system or the network
    lives in a state-and-exception monad over an explicit [World]. *)

From Stdlib Require Import ZArith Ascii Floats.SpecFloat.
From stdpp Require Import gmap strings list fin_maps pretty.
From Ceres Require Ceres.

(** ** Strings *)

(** [str.lower] on the ASCII range: the letters A..Z are mapped to a..z and
    every other byte is kept. *)
Definition ascii_lower (c : ascii) : ascii :=
  let n := nat_of_ascii c in
  if (65 <=? n)%nat && (n <=? 90)%nat then ascii_of_nat (n + 32) else c.

Fixpoint lower (s : string) : string :=
  match s with
  | EmptyString => EmptyString
  | String c s' => String (ascii_lower c) (lower s')
  end.

Definition is_upper (c : ascii) : bool :=
  let n := nat_of_ascii c in (65 <=? n)%nat && (n <=? 90)%nat.

(** A string is in normal form when none of its characters is an upper-case
    letter. *)
Fixpoint no_uppercase (s : string) : bool :=
  match s with
  | EmptyString => true
  | String c s' => negb (is_upper c) && no_uppercase s'
  end.

(** ** Exceptions and the world *)

(** An instance of Python's [Exception]: its class name and [str(e)]. *)
Record exn := Exception { exn_class : string; exn_str : string }.

Definition ValueError (msg : string) : exn := Exception "ValueError" msg.
Definition FileNotFoundError (path : string) : exn :=
  Exception "FileNotFoundError" ("No such file or directory: " +:+ path).

(** What [requests.get] returns. *)
Record Response := { status_code : Z; text : string }.

(** The environment the program runs in: the files on disk, what the remote
    server answers to a GET of a URL (or the exception the request raises),
    the clock, the records emitted through [logging] and the URLs requested
    so far. *)
Record World := {
  files : gmap string string;
  remote : string -> exn + Response;
  clock : nat;
  log : list string;
  requests : list string
}.

(** ** The monad of effectful code: state passing over [World], with
    exceptions.  The world reached when an exception is raised is kept, as
    side effects done before a [raise] are not undone. *)
Definition M (A : Type) : Type := World -> (exn + A) * World.

Definition ret {A} (a : A) : M A := fun w => (inr a, w).

Definition bind {A B} (m : M A) (k : A -> M B) : M B :=
  fun w => match m w with
           | (inl e, w') => (inl e, w')
           | (inr a, w') => k a w'
           end.

Definition raise {A} (e : exn) : M A := fun w => (inl e, w).

(** [try: body  except Exception as e: handler e]. *)
Definition try_except {A} (body : M A) (handler : exn -> M A) : M A :=
  fun w => match body w with
           | (inl e, w') => handler e w'
           | (inr a, w') => (inr a, w')
           end.

Notation "'let!' x ':=' m 'in' k" := (bind m (fun x => k))
  (at level 10, x name, m at level 100, k at level 200, only parsing).
Notation "'let!' ' pat ':=' m 'in' k" :=
  (bind m (fun x => match x with pat => k end))
  (at level 10, pat pattern, m at level 100, k at level 200, only parsing).
Notation "'do!' m 'in' k" := (bind m (fun _ => k))
  (at level 10, m at level 100, k at level 200, only parsing).

(** Primitive effects. *)
Definition path_exists (path : string) : M bool :=
  fun w => (inr (bool_decide (is_Some (files w !! path))), w).

Definition write_file (path content : string) : M unit :=
  fun w => (inr tt, {| files := <[path := content]> (files w);
                       remote := remote w; clock := clock w;
                       log := log w; requests := requests w |}).

Definition read_file (path : string) : M string :=
  fun w => match files w !! path with
           | Some content => (inr content, w)
           | None => (inl (FileNotFoundError path), w)
           end.

Definition logger_info (msg : string) : M unit :=
  fun w => (inr tt, {| files := files w; remote := remote w; clock := clock w;
                       log := log w ++ [msg]; requests := requests w |}).

Definition requests_get (url : string) : M Response :=
  fun w => (remote w url, {| files := files w; remote := remote w;
                             clock := clock w; log := log w;
                             requests := requests w ++ [url] |}).

(** Reading the clock: the reading is returned and time moves on by one
    tick, so that no two readings coincide. *)
Definition tick (w : World) : World :=
  {| files := files w; remote := remote w; clock := S (clock w);
     log := log w; requests := requests w |}.

Definition clock_now : M nat := fun w => (inr (clock w), tick w).

(** [Path(a) / b] for a relative [b]. *)
Definition path_join (a b : string) : string := a +:+ "/" +:+ b.

(** ** Structures, as the parser delivers them *)

(** A residue's [id] is the triple (hetero flag, sequence number, insertion
    code); the hetero flag is one blank for a standard residue. *)
Record Residue := { hetfield : string; resseq : Z; icode : string }.

(** The entries of the header dictionary that the program reads; [None] is
    a missing key (for the resolution also a key bound to Python's [None]). *)
Record Header := {
  hdr_name : option string;
  hdr_resolution : option spec_float;
  hdr_structure_method : option string;
  hdr_keywords : option string
}.

(** A structure iterates over its models, a model over its chains, a chain
    over its residues. *)
Record Structure := { header : Header; models : list (list (list Residue)) }.

(** ** Records of the data source and of the registry *)

(** The dictionary built by [get_function]. *)
Record FunctionInfo := {
  fi_id : string;
  fi_description : string;
  fi_resolution : option spec_float;
  fi_structure_method : string;
  fi_keywords : string + list string;
  fi_ec_numbers : list string
}.

(** The second component of what [validate_structure] returns: either
    [{"reason": ...}] or [{"resolution", "amino_acid_count",
    "has_ec_number"}]. *)
Inductive ValidationInfo :=
  | Reason (reason : string)
  | Metrics (resolution : spec_float) (amino_acid_count : Z) (has_ec_number : bool).

(** The dictionary stored per protein. [validation_info], [function_info]
    and [error] are keys that a record may lack. *)
Record Evaluation := {
  protein_id : string;
  meets_criteria : bool;
  validation_info : option ValidationInfo;
  function_info : option FunctionInfo;
  error : option string;
  evaluation_date : string
}.

Record SelectionCriteria := {
  max_resolution : spec_float;
  min_length : Z;
  max_length : Z;
  require_ec : bool
}.

(** ** Library functions the program calls

    [float_repr] is [str] of a float, [isoformat] is
    [pd.Timestamp.isoformat] of the clock reading, [pdb_parse] is Biopython's
    [PDBParser.get_structure] applied to the structure id and the text of the
    file, [json_dumps]/[json_loads] are [json.dump]/[json.load] on a registry
    dictionary. *)
Class Platform := {
  float_repr : spec_float -> string;
  isoformat : nat -> string;
  pdb_parse : string -> string -> exn + Structure;
  json_dumps : gmap string Evaluation -> string;
  json_loads : string -> exn + gmap string Evaluation
}.

(** [str(x)] for an integer and for a float-or-None. *)
Definition str_int (z : Z) : string := pretty z.

Definition str_resolution `{Platform} (r : option spec_float) : string :=
  match r with
  | None => "None"
  | Some x => float_repr x
  end.

(** ** [sources.py]: the PDB data source *)

Module Sources.

(** The attributes of a [PDBDataSource] object besides the parser and the
    URL template, which are the same for every instance. *)
Record PDBDataSource := { cache_dir : string }.

(** [self.pdb_url.format(protein_id)] *)
Definition pdb_url_format (protein_id : string) : string :=
  "https://files.rcsb.org/download/" +:+ protein_id +:+ ".pdb".

(** [PDBDataSource.__init__]; creating the cache directory leaves the files
    of the world as they are. *)
Definition PDBDataSource_init (cache_dir : string) : M PDBDataSource :=
  do! logger_info ("PDB data source initialized with cache at " +:+ cache_dir) in
  ret {| cache_dir := cache_dir |}.

(** [self.parser.get_structure(protein_id, str(pdb_file))]: the parser opens
    the file and decodes it. *)
Definition parser_get_structure `{Platform} (protein_id pdb_file : string)
  : M Structure :=
  let! content := read_file pdb_file in
  fun w => (pdb_parse protein_id content, w).

Definition get_structure `{Platform} (self : PDBDataSource) (protein_id : string)
  : M Structure :=
  let protein_id := lower protein_id in
  let pdb_file := path_join (cache_dir self) (protein_id +:+ ".pdb") in
  let! cached := path_exists pdb_file in
  do! (if negb cached then
     let url := pdb_url_format protein_id in
     do! logger_info ("Downloading " +:+ url) in
     let! response := requests_get url in
     if negb (status_code response =? 200)%Z then
       raise (ValueError ("Failed to download PDB: " +:+ protein_id))
     else
       do! write_file pdb_file (text response) in
       logger_info ("Saved PDB file to " +:+ pdb_file)
   else ret tt) in
  parser_get_structure protein_id pdb_file.

(** [header.get(key, default)] for the four keys read. *)
Definition get_function `{Platform} (self : PDBDataSource) (protein_id : string)
  : M FunctionInfo :=
  let! structure := get_structure self protein_id in
  let header := header structure in
  ret {| fi_id := protein_id;
         fi_description := default "" (hdr_name header);
         fi_resolution := hdr_resolution header;
         fi_structure_method := default "" (hdr_structure_method header);
         fi_keywords := match hdr_keywords header with
                        | Some k => inl k
                        | None => inr []
                        end;
         fi_ec_numbers := [] |}.

(** The three nested loops that count the residues whose hetero flag is a
    blank. *)
Definition count_chain (chain : list Residue) (amino_acid_count : Z) : Z :=
  fold_left (fun count residue =>
               if String.eqb (hetfield residue) " " then (count + 1)%Z else count)
            chain amino_acid_count.

Definition count_model (model : list (list Residue)) (amino_acid_count : Z) : Z :=
  fold_left (fun count chain => count_chain chain count) model amino_acid_count.

Definition count_amino_acids (structure : Structure) : Z :=
  fold_left (fun count model => count_model model count) (models structure) 0%Z.

(** The length checks and the successful result (the statements after the
    counting loops). *)
Definition check_length (resolution : spec_float) (amino_acid_count : Z)
    (min_length max_length : Z) : bool * ValidationInfo :=
  if (amino_acid_count <? min_length)%Z then
    (false, Reason ("Too short: " +:+ str_int amino_acid_count +:+ " < "
                                  +:+ str_int min_length))
  else if (amino_acid_count >? max_length)%Z then
    (false, Reason ("Too long: " +:+ str_int amino_acid_count +:+ " > "
                                 +:+ str_int max_length))
  else
    (true, Metrics resolution amino_acid_count false).

(** The checks made on a decoded structure and its function summary (the
    body of the [try] once both have been obtained).  [resolution >
    max_resolution] is the IEEE comparison: false when either side is a NaN. *)
Definition check_structure `{Platform} (structure : Structure)
    (function_info : FunctionInfo) (max_resolution : spec_float)
    (min_length max_length : Z) : bool * ValidationInfo :=
  let resolution := fi_resolution function_info in
  match resolution with
  | None =>
      (false, Reason ("Resolution " +:+ str_resolution resolution +:+ " > "
                                    +:+ float_repr max_resolution))
  | Some r =>
      if SFltb max_resolution r then
        (false, Reason ("Resolution " +:+ str_resolution resolution +:+ " > "
                                      +:+ float_repr max_resolution))
      else
        check_length r (count_amino_acids structure) min_length max_length
  end.

Definition validate_structure `{Platform} (self : PDBDataSource)
    (protein_id : string) (max_resolution : spec_float)
    (min_length max_length : Z) : M (bool * ValidationInfo) :=
  try_except
    (let! structure := get_structure self protein_id in
     let! function_info := get_function self protein_id in
     ret (check_structure structure function_info
                          max_resolution min_length max_length))
    (fun e => ret (false, Reason ("Error: " +:+ exn_str e))).

(** [get_data_source(source_type, cache_dir=...)]; the default cache
    directory is that of [PDBDataSource.__init__]. *)
Definition get_data_source (source_type : string) (cache_dir : option string)
  : M PDBDataSource :=
  if String.eqb source_type "pdb" then
    PDBDataSource_init (default "../data/raw" cache_dir)
  else
    raise (ValueError ("Unknown data source type: " +:+ source_type)).

(** A standard residue, and the residues of a structure in iteration order
    (all chains of all models). *)
Definition standard (r : Residue) : Prop := hetfield r = " ".

Definition residues (structure : Structure) : list Residue :=
  concat (concat (models structure)).

(** The path of the cache file of a protein id. *)
Definition cache_path (src : PDBDataSource) (protein_id : string) : string :=
  path_join (cache_dir src) (lower protein_id +:+ ".pdb").

End Sources.

(** ** [dataset.py]: the registry *)

Module Dataset.

(** The two methods of a data source that the registry calls.  Any object
    with these methods can be passed to the registry. *)
Record DataSource := {
  ds_validate_structure :
    string -> spec_float -> Z -> Z -> M (bool * ValidationInfo);
  ds_get_function : string -> M FunctionInfo
}.

Definition pdb_source `{Platform} (src : Sources.PDBDataSource) : DataSource :=
  {| ds_validate_structure := Sources.validate_structure src;
     ds_get_function := Sources.get_function src |}.

Record ProteinDatasetRegistry := {
  data_source : DataSource;
  registry_file : string;
  proteins : gmap string Evaluation;
  selection_criteria : SelectionCriteria
}.

(** 2.5 as a binary64 value: 5 * 2^50 * 2^-51. *)
Definition float_2_5 : spec_float := S754_finite false 5629499534213120 (-51).

(** The criteria written by [__init__]. *)
Definition default_criteria : SelectionCriteria :=
  {| max_resolution := float_2_5; min_length := 50; max_length := 300;
     require_ec := true |}.

(** [self.proteins[protein_id] = evaluation] *)
Definition set_protein (self : ProteinDatasetRegistry) (protein_id : string)
    (evaluation : Evaluation) : ProteinDatasetRegistry :=
  {| data_source := data_source self;
     registry_file := registry_file self;
     proteins := <[protein_id := evaluation]> (proteins self);
     selection_criteria := selection_criteria self |}.

(** [load_registry], which reads only [self.registry_file]. *)
Definition load_registry `{Platform} (registry_file : string)
  : M (gmap string Evaluation) :=
  let! present := path_exists registry_file in
  if present then
    let! content := read_file registry_file in
    fun w => (json_loads content, w)
  else ret ∅.

(** [__init__]; creating the parent directory leaves the files of the world
    as they are. *)
Definition init `{Platform} (data_source : option DataSource)
    (registry_file : string) : M ProteinDatasetRegistry :=
  let! source := match data_source with
                 | Some d => ret d
                 | None => (let! src := Sources.get_data_source "pdb" None in
                            ret (pdb_source src))
                 end in
  let! loaded := load_registry registry_file in
  ret {| data_source := source; registry_file := registry_file;
         proteins := loaded; selection_criteria := default_criteria |}.


(** [pd.Timestamp.now().isoformat()] *)
Definition timestamp_now `{Platform} : M string :=
  let! t := clock_now in ret (isoformat t).

Definition add_protein `{Platform} (self : ProteinDatasetRegistry)
    (protein_id : string) : M (Evaluation * ProteinDatasetRegistry) :=
  let protein_id := lower protein_id in
  match proteins self !! protein_id with
  | Some evaluation => ret (evaluation, self)
  | None =>
      try_except
        (let! '(is_valid, validation_info) :=
            ds_validate_structure (data_source self) protein_id
              (max_resolution (selection_criteria self))
              (min_length (selection_criteria self))
              (max_length (selection_criteria self)) in
         let! function_info := ds_get_function (data_source self) protein_id in
         let! now := timestamp_now in
         let evaluation :=
           {| protein_id := protein_id;
              meets_criteria := is_valid;
              validation_info := Some validation_info;
              function_info := Some function_info;
              error := None;
              evaluation_date := now |} in
         ret (evaluation, set_protein self protein_id evaluation))
        (fun e =>
           let! now := timestamp_now in
           let evaluation :=
             {| protein_id := protein_id;
                meets_criteria := false;
                validation_info := None;
                function_info := None;
                error := Some (exn_str e);
                evaluation_date := now |} in
           ret (evaluation, set_protein self protein_id evaluation))
  end.

(** [get_valid_proteins] *)
Definition get_valid_proteins (self : ProteinDatasetRegistry)
  : gmap string Evaluation :=
  filter (fun kv => meets_criteria kv.2 = true) (proteins self).

(** The dictionary returned by [generate_summary_report]. *)
Record SummaryReport := {
  total_proteins_evaluated : Z;
  valid_proteins : Z;
  invalid_proteins : Z;
  proteins_by_ec_class : gmap string Z;
  report_selection_criteria : SelectionCriteria;
  report_registry_file : string
}.

Definition generate_summary_report (self : ProteinDatasetRegistry)
  : SummaryReport :=
  let total := Z.of_nat (size (proteins self)) in
  let valid := Z.of_nat (size (get_valid_proteins self)) in
  {| total_proteins_evaluated := total;
     valid_proteins := valid;
     invalid_proteins := (total - valid)%Z;
     proteins_by_ec_class := ∅;
     report_selection_criteria := selection_criteria self;
     report_registry_file := registry_file self |}.

(** [recommend_initial_proteins] *)
Definition recommend_initial_proteins : list string :=
  ["1lyz"; "1tim"; "1crn"; "1hrd"; "1gox"; "1cax"].

(** A caller's loop [for pid in ids: registry.add_protein(pid)], collecting
    the evaluations returned. *)
Fixpoint add_proteins `{Platform} (self : ProteinDatasetRegistry)
    (ids : list string) : M (list Evaluation * ProteinDatasetRegistry) :=
  match ids with
  | [] => ret ([], self)
  | pid :: rest =>
      let! '(evaluation, self1) := add_protein self pid in
      let! '(evaluations, self2) := add_proteins self1 rest in
      ret (evaluation :: evaluations, self2)
  end.

(** ** Vocabulary of the statements *)

(** The call [self.data_source.validate_structure(protein_id, ...)] made by
    [add_protein], with the three criteria it passes. *)
Definition validate_call (self : ProteinDatasetRegistry) (protein_id : string)
  : M (bool * ValidationInfo) :=
  ds_validate_structure (data_source self) protein_id
    (max_resolution (selection_criteria self))
    (min_length (selection_criteria self))
    (max_length (selection_criteria self)).

(** The two dictionaries [add_protein] builds, stamped with the clock
    reading [t]. *)
Definition success_evaluation `{Platform} (protein_id : string) (is_valid : bool)
    (validation_info : ValidationInfo) (function_info : FunctionInfo) (t : nat)
  : Evaluation :=
  {| protein_id := protein_id; meets_criteria := is_valid;
     validation_info := Some validation_info;
     function_info := Some function_info;
     error := None; evaluation_date := isoformat t |}.

Definition error_evaluation `{Platform} (protein_id : string) (e : exn) (t : nat)
  : Evaluation :=
  {| protein_id := protein_id; meets_criteria := false;
     validation_info := None; function_info := None;
     error := Some (exn_str e); evaluation_date := isoformat t |}.

(** The same registry object with other criteria, and with another data
    source. *)
Definition with_criteria (self : ProteinDatasetRegistry)
    (criteria : SelectionCriteria) : ProteinDatasetRegistry :=
  {| data_source := data_source self; registry_file := registry_file self;
     proteins := proteins self; selection_criteria := criteria |}.

Definition with_source (self : ProteinDatasetRegistry) (source : DataSource)
  : ProteinDatasetRegistry :=
  {| data_source := source; registry_file := registry_file self;
     proteins := proteins self; selection_criteria := selection_criteria self |}.

Definition set_require_ec (criteria : SelectionCriteria) (b : bool)
  : SelectionCriteria :=
  {| max_resolution := max_resolution criteria;
     min_length := min_length criteria; max_length := max_length criteria;
     require_ec := b |}.

(** The number of entries of the registry stored under a key. *)
Definition entries_for (self : ProteinDatasetRegistry) (key : string) : nat :=
  length (filter (fun kv => kv.1 = key) (map_to_list (proteins self))).

(** What a caller observes of a call of [add_protein]: the evaluation
    returned (or the exception), the registry dictionary and the world
    afterwards. *)
Definition observe (r : (exn + Evaluation * ProteinDatasetRegistry) * World)
  : (exn + Evaluation * gmap string Evaluation) * World :=
  (match r.1 with
   | inl e => inl e
   | inr (evaluation, self) => inr (evaluation, proteins self)
   end, r.2).

(** A stored record has both [validation_info] and [function_info]. *)
Definition has_both_infos (evaluation : Evaluation) : Prop :=
  is_Some (validation_info evaluation) ∧ is_Some (function_info evaluation).

(** The three ways a call of [add_protein] on a new id can go, with the
    evaluation built and the world reached. *)
Inductive add_outcome `{Platform} (self : ProteinDatasetRegistry) (id : string)
    (w : World) : Evaluation -> World -> Prop :=
  | outcome_success is_valid vi w1 fi w2 :
      validate_call self (lower id) w = (inr (is_valid, vi), w1) ->
      ds_get_function (data_source self) (lower id) w1 = (inr fi, w2) ->
      add_outcome self id w
        (success_evaluation (lower id) is_valid vi fi (clock w2)) (tick w2)
  | outcome_validate_raises e w1 :
      validate_call self (lower id) w = (inl e, w1) ->
      add_outcome self id w (error_evaluation (lower id) e (clock w1)) (tick w1)
  | outcome_function_raises r w1 e w2 :
      validate_call self (lower id) w = (inr r, w1) ->
      ds_get_function (data_source self) (lower id) w1 = (inl e, w2) ->
      add_outcome self id w (error_evaluation (lower id) e (clock w2)) (tick w2).

(** Whether the evaluation returned by a call met the criteria. *)
Definition pass_fail (r : (exn + Evaluation * ProteinDatasetRegistry) * World)
  : option bool :=
  match r.1 with
  | inl _ => None
  | inr (evaluation, _) => Some (meets_criteria evaluation)
  end.

(** Two criteria records that agree on every field but the named one. *)
Definition differ_only_in_max_resolution (c c' : SelectionCriteria) : Prop :=
  min_length c = min_length c' ∧ max_length c = max_length c' ∧
  require_ec c = require_ec c'.

Definition differ_only_in_min_length (c c' : SelectionCriteria) : Prop :=
  max_resolution c = max_resolution c' ∧ max_length c = max_length c' ∧
  require_ec c = require_ec c'.

Definition differ_only_in_max_length (c c' : SelectionCriteria) : Prop :=
  max_resolution c = max_resolution c' ∧ min_length c = min_length c' ∧
  require_ec c = require_ec c'.

Definition differ_only_in_require_ec (c c' : SelectionCriteria) : Prop :=
  max_resolution c = max_resolution c' ∧ min_length c = min_length c' ∧
  max_length c = max_length c'.

(** The pass/fail outcome of [add_protein] depends on a field of the
    criteria: some call has different outcomes under two criteria records
    that differ only in that field. *)
Definition outcome_depends_on
    (differ_only : SelectionCriteria -> SelectionCriteria -> Prop) : Prop :=
  ∃ (P : Platform) (self : ProteinDatasetRegistry)
    (c c' : SelectionCriteria) (id : string) (w : World),
    differ_only c c' ∧
    pass_fail (add_protein (H := P) (with_criteria self c) id w)
    ≠ pass_fail (add_protein (H := P) (with_criteria self c') id w).

End Dataset.

(** ** A concrete platform and concrete worlds

    Used to run the program on explicit inputs.  The float rendering writes
    mantissa and exponent, the parser reads a one-line stand-in for a PDB
    file (a resolution tag followed by one character per residue of a single
    chain, a blank being a standard residue) and the registry file is written
    as an S-expression. *)

Module Example.
Import Sources Dataset.

Definition float_2_0 : spec_float := S754_finite false 4503599627370496 (-51).
Definition float_3_0 : spec_float := S754_finite false 6755399441055744 (-51).

Definition render_float (x : spec_float) : string :=
  match x with
  | S754_zero s => if s then "-0.0" else "0.0"
  | S754_infinity s => if s then "-inf" else "inf"
  | S754_nan => "nan"
  | S754_finite s m e =>
      (if s then "-" else "") +:+ pretty (Zpos m) +:+ "p" +:+ pretty e
  end.

Definition residue_of_char (c : ascii) : Residue :=
  {| hetfield := String c EmptyString; resseq := 0; icode := " " |}.

Definition resolution_of_tag (tag : ascii) : option spec_float :=
  if Ascii.eqb tag "n" then None
  else if Ascii.eqb tag "h" then Some float_3_0
  else if Ascii.eqb tag "e" then Some float_2_5
  else Some float_2_0.

Definition structure_of (structure_id : string) (tag : ascii) (residues : string)
  : Structure :=
  {| header := {| hdr_name := Some structure_id;
                  hdr_resolution := resolution_of_tag tag;
                  hdr_structure_method := Some "x-ray diffraction";
                  hdr_keywords := None |};
     models := [[residue_of_char <$> String.list_ascii_of_string residues]] |}.

Definition parse_line (structure_id content : string) : exn + Structure :=
  match content with
  | EmptyString => inl (Exception "PDBConstructionException" "Empty file.")
  | String tag residues => inr (structure_of structure_id tag residues)
  end.

(** The function summary [get_function] builds from [structure_of]. *)
Definition summary_of (protein_id : string) (tag : ascii) : FunctionInfo :=
  {| fi_id := protein_id; fi_description := lower protein_id;
     fi_resolution := resolution_of_tag tag;
     fi_structure_method := "x-ray diffraction";
     fi_keywords := inr []; fi_ec_numbers := [] |}.

(** The registry file: every record as nested pairs of printable values. *)
Definition float_fields (x : spec_float) : Z * (bool * (Z * Z)) :=
  match x with
  | S754_zero s => (0, (s, (0, 0)))
  | S754_infinity s => (1, (s, (0, 0)))
  | S754_nan => (2, (false, (0, 0)))
  | S754_finite s m e => (3, (s, (Zpos m, e)))
  end%Z.

Definition float_of_fields (t : Z * (bool * (Z * Z))) : spec_float :=
  match t with
  | (0, (s, _)) => S754_zero s
  | (1, (s, _)) => S754_infinity s
  | (3, (s, (Zpos m, e))) => S754_finite s m e
  | _ => S754_nan
  end%Z.

Definition validation_fields (v : ValidationInfo)
  : string + (Z * (bool * (Z * Z))) * (Z * bool) :=
  match v with
  | Reason r => inl r
  | Metrics x n b => inr (float_fields x, (n, b))
  end.

Definition validation_of_fields
    (t : string + (Z * (bool * (Z * Z))) * (Z * bool)) : ValidationInfo :=
  match t with
  | inl r => Reason r
  | inr (x, (n, b)) => Metrics (float_of_fields x) n b
  end.

Definition function_fields (f : FunctionInfo) :=
  (fi_id f, (fi_description f, (float_fields <$> fi_resolution f,
   (fi_structure_method f, (fi_keywords f, fi_ec_numbers f))))).

Definition function_of_fields
    (t : string * (string * (option (Z * (bool * (Z * Z))) *
          (string * ((string + list string) * list string))))) : FunctionInfo :=
  match t with
  | (i, (d, (r, (m, (k, ec))))) =>
      {| fi_id := i; fi_description := d; fi_resolution := float_of_fields <$> r;
         fi_structure_method := m; fi_keywords := k; fi_ec_numbers := ec |}
  end.

Definition evaluation_fields (e : Evaluation) :=
  (protein_id e, (meets_criteria e, (validation_fields <$> validation_info e,
   (function_fields <$> function_info e, (error e, evaluation_date e))))).

Definition evaluation_of_fields t : Evaluation :=
  match t with
  | (i, (b, (v, (f, (err, d))))) =>
      {| protein_id := i; meets_criteria := b;
         validation_info := validation_of_fields <$> v;
         function_info := function_of_fields <$> f;
         error := err; evaluation_date := d |}
  end.

Definition write_registry (m : gmap string Evaluation) : string :=
  CeresSerialize.to_string (prod_map id evaluation_fields <$> map_to_list m).

Definition read_registry (s : string) : exn + gmap string Evaluation :=
  match CeresDeserialize.from_string s with
  | inl _ => inl (Exception "JSONDecodeError" "Expecting value")
  | inr l => inr (list_to_map (prod_map id evaluation_of_fields <$> l))
  end.

#[global] Instance platform : Platform | 100 :=
  {| float_repr := render_float;
     isoformat := fun t => "2024-01-01T00:00:" +:+ pretty t;
     pdb_parse := parse_line;
     json_dumps := write_registry;
     json_loads := read_registry |}.

(** Worlds: one whose server answers 404 to every request, and one with a
    file in the cache and no network. *)
Definition not_found (url : string) : exn + Response :=
  inr {| status_code := 404; text := "" |}.

Definition offline (url : string) : exn + Response :=
  inl (Exception "ConnectionError" "Max retries exceeded").

Definition world_404 : World :=
  {| files := ∅; remote := not_found; clock := 0; log := []; requests := [] |}.

Definition world_cached (content : string) : World :=
  {| files := {[ "raw/1abc.pdb" := content ]}; remote := offline; clock := 7;
     log := []; requests := [] |}.

Definition source : PDBDataSource := {| cache_dir := "raw" |}.

Definition registry : ProteinDatasetRegistry :=
  {| data_source := pdb_source source; registry_file := "registry.json";
     proteins := ∅; selection_criteria := default_criteria |}.

Definition criteria (r : spec_float) (lo hi : Z) : SelectionCriteria :=
  {| max_resolution := r; min_length := lo; max_length := hi;
     require_ec := true |}.

(** [world_404] after one and after two failed downloads of 1abc. *)
Definition url_1abc : string := "https://files.rcsb.org/download/1abc.pdb".

Definition world_404_once : World :=
  {| files := ∅; remote := not_found; clock := 0;
     log := ["Downloading " +:+ url_1abc]; requests := [url_1abc] |}.

Definition world_404_twice : World :=
  {| files := ∅; remote := not_found; clock := 0;
     log := ["Downloading " +:+ url_1abc; "Downloading " +:+ url_1abc];
     requests := [url_1abc; url_1abc] |}.


End Example.

(** ** Worlds reached by the data source, and further scenarios *)

Module Scenario.
Import Sources Dataset.

(** The world after a request for the file of [protein_id] that brought no
    file: the request is logged and counted, nothing else changes. *)
Definition after_request (protein_id : string) (w : World) : World :=
  {| files := files w; remote := remote w; clock := clock w;
     log := log w ++ ["Downloading " +:+ pdb_url_format (lower protein_id)];
     requests := requests w ++ [pdb_url_format (lower protein_id)] |}.

(** The world after a download of the file of [protein_id]: the text of
    the response is in the cache file. *)
Definition after_download (src : PDBDataSource) (protein_id : string)
    (response : Response) (w : World) : World :=
  {| files := <[cache_path src protein_id := text response]> (files w);
     remote := remote w; clock := clock w;
     log := (log w ++ ["Downloading " +:+ pdb_url_format (lower protein_id)])
            ++ ["Saved PDB file to " +:+ cache_path src protein_id];
     requests := requests w ++ [pdb_url_format (lower protein_id)] |}.

(** The dictionary [get_function] builds from a structure. *)
Definition summary (protein_id : string) (structure : Structure)
  : FunctionInfo :=
  {| fi_id := protein_id;
     fi_description := default "" (hdr_name (header structure));
     fi_resolution := hdr_resolution (header structure);
     fi_structure_method := default "" (hdr_structure_method (header structure));
     fi_keywords := match hdr_keywords (header structure) with
                    | Some k => inl k
                    | None => inr []
                    end;
     fi_ec_numbers := [] |}.

(** What [validate_structure] answers once the text of the file is known. *)
Definition verdict `{Platform} (protein_id content : string)
    (max_resolution : spec_float) (min_length max_length : Z)
  : bool * ValidationInfo :=
  match pdb_parse (lower protein_id) content with
  | inl e => (false, Reason ("Error: " +:+ exn_str e))
  | inr structure =>
      check_structure structure (summary protein_id structure)
                      max_resolution min_length max_length
  end.

(** A server that answers every request with status 200 and the given
    text, and a world with an empty cache talking to it. *)
Definition serving (content url : string) : exn + Response :=
  inr {| status_code := 200; text := content |}.

Definition world_serving (content : string) : World :=
  {| files := ∅; remote := serving content; clock := 0; log := [];
     requests := [] |}.

(** A world whose registry file holds the given text. *)
Definition world_with_registry_file (content : string) : World :=
  {| files := {[ "registry.json" := content ]}; remote := Example.offline;
     clock := 0; log := []; requests := [] |}.

(** The number of entries of a registry that met the criteria, as 0 or 1 for
    one evaluation. *)
Definition valid_count (evaluation : Evaluation) : Z :=
  if meets_criteria evaluation then 1%Z else 0%Z.

End Scenario.

(** ** Python's [==] on the values of a registry

    The comparison of two registry dictionaries that share no object, as the
    dictionary saved and the one read back from the file: dictionaries are
    equal when they have the same keys and equal values, a missing key is
    equal to nothing but a missing key, and two floats are equal by the IEEE
    equality, under which a NaN is equal to no float, itself included. *)

Module Equality.
Import Dataset.










(** No key of the dictionary has an upper-case letter. *)
Definition keys_lowercase (m : gmap string Evaluation) : Prop :=
  ∀ k, k ∈ dom m → no_uppercase k = true.

(** The registry [__init__] builds when [load_registry] returns [loaded]. *)
Definition constructed (source' : option DataSource) (registry_file : string)
    `{Platform} (loaded : gmap string Evaluation) : ProteinDatasetRegistry :=
  {| data_source := match source' with
                    | Some d => d
                    | None => pdb_source {| Sources.cache_dir := "../data/raw" |}
                    end;
     registry_file := registry_file;
     proteins := loaded;
     selection_criteria := default_criteria |}.

End Equality.

(** ** Further runs: a file whose resolution is a NaN, and a registry file
    with an upper-case key *)

Module Reload.
Import Sources Dataset.

(** A parser that answers, for any file, a structure of 60 standard residues
    whose resolution is a NaN, and the platform of the examples with this
    parser. *)
Definition nan_structure (structure_id : string) : Structure :=
  {| header := {| hdr_name := Some structure_id;
                  hdr_resolution := Some S754_nan;
                  hdr_structure_method := Some "x-ray diffraction";
                  hdr_keywords := None |};
     models := [[replicate 60 (Example.residue_of_char " ")]] |}.

Definition nan_platform : Platform :=
  {| float_repr := Example.render_float;
     isoformat := fun t => "2024-01-01T00:00:" +:+ pretty t;
     pdb_parse := fun structure_id _ => inr (nan_structure structure_id);
     json_dumps := Example.write_registry;
     json_loads := Example.read_registry |}.

Definition nan_registry : ProteinDatasetRegistry :=
  {| data_source := pdb_source (H := nan_platform) Example.source;
     registry_file := "registry.json";
     proteins := ∅; selection_criteria := default_criteria |}.

(** The record [add_protein] stores for 1abc on that platform, and the
    registry holding it. *)
Definition nan_evaluation : Evaluation :=
  success_evaluation (H := nan_platform) "1abc" true
    (Metrics S754_nan 60 false)
    (Scenario.summary "1abc" (nan_structure "1abc")) 7.

Definition registry_with_nan : ProteinDatasetRegistry :=
  set_protein nan_registry "1abc" nan_evaluation.

(** A registry file with one record, stored under a key in upper case. *)
Definition upper_case_records : gmap string Evaluation :=
  {[ "1LYZ" := success_evaluation (H := Example.platform) "1LYZ" true
                 (Metrics Example.float_2_0 120 false)
                 (Example.summary_of "1LYZ" "a") 3 ]}.

Definition world_with_upper_case_key : World :=
  {| files := {[ "registry.json" := Example.write_registry upper_case_records ]};
     remote := Example.not_found; clock := 0; log := []; requests := [] |}.

End Reload.

(** * Properties *)

Import Sources Dataset.

(** ** Lower-casing *)

Lemma ascii_lower_idemp (c : ascii) : ascii_lower (ascii_lower c) = ascii_lower c.
Proof. destruct c as [[] [] [] [] [] [] [] []]; reflexivity. Qed.

Lemma lower_idemp (s : string) : lower (lower s) = lower s.
Proof.
  induction s as [|c s IH]; simpl; [done|].
  by rewrite ascii_lower_idemp, IH.
Qed.

Lemma ascii_lower_not_upper (c : ascii) : is_upper (ascii_lower c) = false.
Proof. destruct c as [[] [] [] [] [] [] [] []]; reflexivity. Qed.

Lemma no_uppercase_lower (s : string) : no_uppercase (lower s) = true.
Proof.
  induction s as [|c s IH]; simpl; [done|].
  by rewrite ascii_lower_not_upper, IH.
Qed.

Lemma lower_fixed (s : string) : no_uppercase s = true → lower s = s.
Proof.
  induction s as [|c s IH]; simpl; [done|].
  intros [Hc Hs]%andb_true_iff. apply negb_true_iff in Hc.
  rewrite IH by done. unfold ascii_lower. unfold is_upper in Hc.
  by rewrite Hc.
Qed.

(** ** [add_protein], path by path *)

Lemma add_protein_cached `{Platform} self id w ev :
  proteins self !! lower id = Some ev →
  add_protein self id w = (inr (ev, self), w).
Proof. intros Hin. unfold add_protein. by rewrite Hin. Qed.

Lemma add_protein_success `{Platform} self id w is_valid vi w1 fi w2 :
  proteins self !! lower id = None →
  validate_call self (lower id) w = (inr (is_valid, vi), w1) →
  ds_get_function (data_source self) (lower id) w1 = (inr fi, w2) →
  let ev := success_evaluation (lower id) is_valid vi fi (clock w2) in
  add_protein self id w = (inr (ev, set_protein self (lower id) ev), tick w2).
Proof.
  intros Hnew Hv Hf. unfold add_protein, validate_call in *. rewrite Hnew.
  unfold try_except, bind. by rewrite Hv, Hf.
Qed.

Lemma add_protein_validate_raises `{Platform} self id w e w1 :
  proteins self !! lower id = None →
  validate_call self (lower id) w = (inl e, w1) →
  let ev := error_evaluation (lower id) e (clock w1) in
  add_protein self id w = (inr (ev, set_protein self (lower id) ev), tick w1).
Proof.
  intros Hnew Hv. unfold add_protein, validate_call in *. rewrite Hnew.
  unfold try_except, bind. by rewrite Hv.
Qed.

Lemma add_protein_function_raises `{Platform} self id w r w1 e w2 :
  proteins self !! lower id = None →
  validate_call self (lower id) w = (inr r, w1) →
  ds_get_function (data_source self) (lower id) w1 = (inl e, w2) →
  let ev := error_evaluation (lower id) e (clock w2) in
  add_protein self id w = (inr (ev, set_protein self (lower id) ev), tick w2).
Proof.
  intros Hnew Hv Hf. unfold add_protein, validate_call in *. rewrite Hnew.
  unfold try_except, bind. rewrite Hv. destruct r. by rewrite Hf.
Qed.

Lemma add_protein_new `{Platform} self id w :
  proteins self !! lower id = None →
  ∃ ev w', add_outcome self id w ev w' ∧
           add_protein self id w = (inr (ev, set_protein self (lower id) ev), w').
Proof.
  intros Hnew.
  destruct (validate_call self (lower id) w) as [[e|[v vi]] w1] eqn:Hv.
  - eexists _, _. split; [by eapply outcome_validate_raises|].
    by apply add_protein_validate_raises.
  - destruct (ds_get_function (data_source self) (lower id) w1)
      as [[e|fi] w2] eqn:Hf.
    + eexists _, _. split; [by eapply outcome_function_raises|].
      by eapply add_protein_function_raises.
    + eexists _, _. split; [by eapply outcome_success|].
      by eapply add_protein_success.
Qed.

(** Every call returns, what it returns is what the registry then holds
    under the lower-cased id, and no other key is touched. *)
Lemma add_protein_total `{Platform} self id w :
  ∃ ev self' w',
    add_protein self id w = (inr (ev, self'), w') ∧
    proteins self' !! lower id = Some ev ∧
    (∀ k, k ≠ lower id → proteins self' !! k = proteins self !! k).
Proof.
  destruct (proteins self !! lower id) as [ev|] eqn:Hin.
  - exists ev, self, w. by rewrite (add_protein_cached _ _ _ ev).
  - destruct (add_protein_new self id w Hin) as (ev & w' & _ & ->).
    eexists _, _, _. split; [done|]. simpl.
    split; [apply lookup_insert_eq|]. intros k Hk. by rewrite lookup_insert_ne.
Qed.

Lemma add_proteins_total `{Platform} ids : ∀ self w,
  ∃ evs self' w',
    add_proteins self ids w = (inr (evs, self'), w') ∧ length evs = length ids.
Proof.
  induction ids as [|id ids IH]; intros self w; simpl.
  - by exists [], self, w.
  - destruct (add_protein_total self id w) as (ev & self1 & w1 & Hadd & _).
    destruct (IH self1 w1) as (evs & self2 & w2 & Hrest & Hlen).
    exists (ev :: evs), self2, w2. unfold bind. rewrite Hadd, Hrest.
    split; [done|]. simpl. by rewrite Hlen.
Qed.

(** A key bound in a finite map has exactly one entry in its listing. *)
Lemma one_entry_per_key {A} (m : gmap string A) (k : string) (v : A) :
  m !! k = Some v →
  length (filter (λ kv : string * A, kv.1 = k) (map_to_list m)) = 1.
Proof.
  intros Hk.
  rewrite <- (insert_id m k v Hk), <- insert_delete_eq.
  rewrite map_to_list_insert by apply lookup_delete_eq.
  rewrite filter_cons_True by done. simpl. f_equal.
  destruct (filter _ (map_to_list (delete k m))) as [|[k' v'] l] eqn:Hf; [done|].
  assert (Hin : (k', v') ∈ filter (λ kv : string * A, kv.1 = k)
                                  (map_to_list (delete k m)))
    by (rewrite Hf; left).
  apply list_elem_of_filter in Hin as [Heq Hin]. simpl in Heq. subst k'.
  apply elem_of_map_to_list in Hin. by rewrite lookup_delete_eq in Hin.
Qed.

(** The run used as example: the PDB source against a server that answers
    404.  Validation reports the failed download, the function summary raises
    it. *)
Lemma example_404_validate :
  validate_call Example.registry "1abc" Example.world_404
  = (inr (false, Reason "Error: Failed to download PDB: 1abc"),
     Example.world_404_once).
Proof. reflexivity. Qed.

Lemma example_404_function :
  ds_get_function (data_source Example.registry) "1abc" Example.world_404_once
  = (inl (ValueError "Failed to download PDB: 1abc"), Example.world_404_twice).
Proof. reflexivity. Qed.

(** ** The registry: what [add_protein] returns and stores *)

(** C10: the evaluation returned by [add_protein] is the record the registry
    holds under the lower-cased id after the call, whichever path the call
    takes (the id was already recorded, the evaluation went through, or an
    exception was caught): the call always returns, and the returned
    evaluation is the stored one. *)
Theorem add_protein_returns_stored_record `{Platform}
    (self : ProteinDatasetRegistry) (id : string) (w : World) :
  ∃ ev self' w',
    add_protein self id w = (inr (ev, self'), w') ∧
    proteins self' !! lower id = Some ev.
Proof.
  destruct (add_protein_total self id w) as (ev & self' & w' & Hadd & Hst & _).
  by exists ev, self', w'.
Qed.

(** C1: a second call of [add_protein] with the same id returns the
    evaluation of the first call and changes neither the registry nor the
    world; this holds with any data source, any criteria and any world at the
    second call, so nothing is validated again; and the registry holds
    exactly one entry for the id. *)
Theorem add_protein_idempotent `{Platform}
    (self : ProteinDatasetRegistry) (id : string) (w : World) :
  ∃ ev self1 w1,
    add_protein self id w = (inr (ev, self1), w1) ∧
    add_protein self1 id w1 = (inr (ev, self1), w1) ∧
    entries_for self1 (lower id) = 1 ∧
    ∀ (source2 : DataSource) (criteria2 : SelectionCriteria) (w2 : World),
      let self2 := with_source (with_criteria self1 criteria2) source2 in
      add_protein self2 id w2 = (inr (ev, self2), w2) ∧
      entries_for self2 (lower id) = 1.
Proof.
  destruct (add_protein_total self id w) as (ev & self1 & w1 & Hadd & Hst & _).
  exists ev, self1, w1. split; [done|].
  split; [by apply add_protein_cached|].
  split; [by eapply one_entry_per_key|].
  intros source2 criteria2 w2 self2.
  split; [by apply add_protein_cached|by eapply one_entry_per_key].
Qed.

(** C3: for an id that is not in the registry, when the validation step
    returns and the function-summary step then raises, [add_protein] does not
    raise: it returns, and stores under the lower-cased id, an evaluation
    with [meets_criteria = false] whose [error] is the message of the
    exception; and a loop over further ids goes on, returning one evaluation
    per id. *)
Theorem add_protein_isolates_faults `{Platform}
    (self : ProteinDatasetRegistry) (id : string) (w : World)
    (r : bool * ValidationInfo) (w1 : World) (e : exn) (w2 : World) :
  proteins self !! lower id = None →
  validate_call self (lower id) w = (inr r, w1) →
  ds_get_function (data_source self) (lower id) w1 = (inl e, w2) →
  ∃ ev,
    add_protein self id w = (inr (ev, set_protein self (lower id) ev), tick w2) ∧
    proteins (set_protein self (lower id) ev) !! lower id = Some ev ∧
    meets_criteria ev = false ∧
    error ev = Some (exn_str e) ∧
    ∀ rest : list string, ∃ evs self' w',
      add_proteins self (id :: rest) w = (inr (ev :: evs, self'), w') ∧
      length evs = length rest.
Proof.
  intros Hnew Hv Hf.
  exists (error_evaluation (lower id) e (clock w2)).
  pose proof (add_protein_function_raises _ _ _ _ _ _ _ Hnew Hv Hf) as Hadd.
  simpl in Hadd. split; [done|].
  split; [apply lookup_insert_eq|]. split; [done|]. split; [done|].
  intros rest.
  destruct (add_proteins_total rest
              (set_protein self (lower id)
                 (error_evaluation (lower id) e (clock w2))) (tick w2))
    as (evs & self' & w' & Hrest & Hlen).
  exists evs, self', w'. split; [|done].
  simpl. unfold bind. by rewrite Hadd, Hrest.
Qed.

Lemma add_protein_isolates_faults_witness :
  ∃ ev,
    add_protein Example.registry "1ABC" Example.world_404
      = (inr (ev, set_protein Example.registry "1abc" ev),
         tick Example.world_404_twice) ∧
    proteins (set_protein Example.registry "1abc" ev) !! "1abc" = Some ev ∧
    meets_criteria ev = false ∧
    error ev = Some "Failed to download PDB: 1abc" ∧
    ∀ rest : list string, ∃ evs self' w',
      add_proteins Example.registry ("1ABC" :: rest) Example.world_404
        = (inr (ev :: evs, self'), w') ∧
      length evs = length rest.
Proof.
  apply (add_protein_isolates_faults Example.registry "1ABC" Example.world_404
           (false, Reason "Error: Failed to download PDB: 1abc")
           Example.world_404_once
           (ValueError "Failed to download PDB: 1abc")
           Example.world_404_twice);
    reflexivity.
Defined.

(** C8, as stated, fails: with the PDB data source and a server that answers
    404, the record stored for the id has neither [validation_info] nor
    [function_info]. *)
Lemma stored_record_may_lack_infos :
  ¬ (∀ (P : Platform) (self : ProteinDatasetRegistry) (id : string) (w : World)
       ev self' w',
       add_protein self id w = (inr (ev, self'), w') →
       proteins self' !! lower id = Some ev →
       has_both_infos ev).
Proof.
  intros Hall.
  pose proof (add_protein_function_raises Example.registry "1ABC"
                Example.world_404 _ _ _ _ eq_refl
                example_404_validate example_404_function) as Hadd.
  simpl in Hadd.
  destruct (Hall _ _ _ _ _ _ _ Hadd) as [Hv _]; [apply lookup_insert_eq|].
  by destruct Hv.
Qed.

(** C8, amended: a record stored by [add_protein] for a new id always has
    [protein_id] (the lower-cased id), [meets_criteria] and
    [evaluation_date].  When validation and function summary both return,
    the record has [validation_info] and [function_info] and no [error];
    when either raises, it has [error] (the message of the exception) and
    [meets_criteria = false], and has neither [validation_info] nor
    [function_info]. *)
Theorem stored_record_shape `{Platform}
    (self : ProteinDatasetRegistry) (id : string) (w : World) :
  proteins self !! lower id = None →
  ∃ ev self' w',
    add_protein self id w = (inr (ev, self'), w') ∧
    proteins self' !! lower id = Some ev ∧
    protein_id ev = lower id ∧
    (∃ t, evaluation_date ev = isoformat t) ∧
    ((∃ is_valid vi w1 fi w2,
        validate_call self (lower id) w = (inr (is_valid, vi), w1) ∧
        ds_get_function (data_source self) (lower id) w1 = (inr fi, w2) ∧
        meets_criteria ev = is_valid ∧
        validation_info ev = Some vi ∧ function_info ev = Some fi ∧
        error ev = None)
     ∨
     (∃ e w1,
        (validate_call self (lower id) w = (inl e, w1) ∨
         ∃ r w0, validate_call self (lower id) w = (inr r, w0) ∧
                 ds_get_function (data_source self) (lower id) w0 = (inl e, w1)) ∧
        meets_criteria ev = false ∧
        validation_info ev = None ∧ function_info ev = None ∧
        error ev = Some (exn_str e))).
Proof.
  intros Hnew.
  destruct (add_protein_new self id w Hnew) as (ev & w' & Hout & Hadd).
  exists ev, (set_protein self (lower id) ev), w'.
  split; [done|]. split; [apply lookup_insert_eq|].
  destruct Hout as [is_valid vi w1 fi w2 Hv Hf|e w1 Hv|r w1 e w2 Hv Hf]; simpl.
  - split; [done|]. split; [by eexists|]. left. by exists is_valid, vi, w1, fi, w2.
  - split; [done|]. split; [by eexists|]. right. exists e, w1. by repeat split; [left|..].
  - split; [done|]. split; [by eexists|]. right. exists e, w2.
    split; [right; by exists r, w1|done].
Qed.

Lemma stored_record_shape_witness :
  ∃ ev self' w',
    add_protein Example.registry "1ABC" Example.world_404 = (inr (ev, self'), w') ∧
    proteins self' !! "1abc" = Some ev ∧
    protein_id ev = "1abc" ∧
    (∃ t, evaluation_date ev = isoformat t) ∧
    ((∃ is_valid vi w1 fi w2,
        validate_call Example.registry "1abc" Example.world_404
          = (inr (is_valid, vi), w1) ∧
        ds_get_function (data_source Example.registry) "1abc" w1 = (inr fi, w2) ∧
        meets_criteria ev = is_valid ∧
        validation_info ev = Some vi ∧ function_info ev = Some fi ∧
        error ev = None)
     ∨
     (∃ e w1,
        (validate_call Example.registry "1abc" Example.world_404 = (inl e, w1) ∨
         ∃ r w0, validate_call Example.registry "1abc" Example.world_404
                   = (inr r, w0) ∧
                 ds_get_function (data_source Example.registry) "1abc" w0
                   = (inl e, w1)) ∧
        meets_criteria ev = false ∧
        validation_info ev = None ∧ function_info ev = None ∧
        error ev = Some (exn_str e))).
Proof.
  apply (stored_record_shape Example.registry "1ABC" Example.world_404).
  reflexivity.
Defined.

(** ** IEEE comparison *)

Lemma SFcompare_refl (x : spec_float) :
  SFcompare x x = Some Eq ∨ SFcompare x x = None.
Proof.
  destruct x as [s|s| |s m e]; simpl; try (destruct s; by left); [by right|].
  rewrite Z.compare_refl, Pos.compare_cont_refl. destruct s; by left.
Qed.

Lemma SFltb_irrefl (x : spec_float) : SFltb x x = false.
Proof. unfold SFltb. by destruct (SFcompare_refl x) as [-> | ->]. Qed.

Lemma SFcompare_Eq_sym (x y : spec_float) :
  SFcompare x y = Some Eq → SFcompare y x = Some Eq.
Proof.
  destruct x as [s|s| |s m e], y as [s'|s'| |s' m' e']; simpl;
    try done; try (destruct s; done); try (destruct s'; done).
  - by destruct s, s'.
  - destruct s, s'; try done.
    + destruct (Z.compare_spec e e') as [->| |]; try done.
      rewrite Z.compare_refl. intros Hm.
      assert (m = m') as ->.
      { apply Pos.compare_eq. unfold Pos.compare.
        destruct (Pos.compare_cont Eq m m'); simpl in Hm; congruence. }
      by rewrite Pos.compare_cont_refl.
    + destruct (Z.compare_spec e e') as [->| |]; try done.
      rewrite Z.compare_refl. intros Hm.
      assert (m = m') as ->.
      { apply Pos.compare_eq. unfold Pos.compare. congruence. }
      by rewrite Pos.compare_cont_refl.
Qed.

(** A resolution equal to the threshold is not greater than it. *)
Lemma SFeqb_not_gt (x y : spec_float) : SFeqb x y = true → SFltb y x = false.
Proof.
  unfold SFeqb, SFltb. intros Heq.
  destruct (SFcompare x y) as [[]|] eqn:Hc; try done.
  by rewrite (SFcompare_Eq_sym _ _ Hc).
Qed.

(** ** The data source *)

(** Statement by statement through the [try] of [validate_structure]. *)
Lemma validate_structure_structure_raises `{Platform} src id maxr lo hi w e w' :
  get_structure src id w = (inl e, w') →
  validate_structure src id maxr lo hi w
  = (inr (false, Reason ("Error: " +:+ exn_str e)), w').
Proof. intros Hs. unfold validate_structure, try_except, bind. by rewrite Hs. Qed.

Lemma validate_structure_function_raises `{Platform} src id maxr lo hi w
    s w1 e w2 :
  get_structure src id w = (inr s, w1) →
  get_function src id w1 = (inl e, w2) →
  validate_structure src id maxr lo hi w
  = (inr (false, Reason ("Error: " +:+ exn_str e)), w2).
Proof.
  intros Hs Hf. unfold validate_structure, try_except, bind. by rewrite Hs, Hf.
Qed.

Lemma validate_structure_checks `{Platform} src id maxr lo hi w s w1 fi w2 :
  get_structure src id w = (inr s, w1) →
  get_function src id w1 = (inr fi, w2) →
  validate_structure src id maxr lo hi w
  = (inr (check_structure s fi maxr lo hi), w2).
Proof.
  intros Hs Hf. unfold validate_structure, try_except, bind. by rewrite Hs, Hf.
Qed.

(** The counting loops count the residues of all chains of all models whose
    hetero flag is a blank. *)
Lemma count_chain_spec (chain : list Residue) (n : Z) :
  count_chain chain n = (n + Z.of_nat (length (filter standard chain)))%Z.
Proof.
  unfold count_chain. revert n.
  induction chain as [|r chain IH]; intros n; simpl; [lia|].
  rewrite IH, filter_cons.
  destruct (String.eqb_spec (hetfield r) " ") as [Heq|Hne].
  - rewrite decide_True by done. simpl length. lia.
  - by rewrite decide_False.
Qed.

Lemma count_model_spec (model : list (list Residue)) (n : Z) :
  count_model model n
  = (n + Z.of_nat (length (filter standard (concat model))))%Z.
Proof.
  unfold count_model. revert n.
  induction model as [|chain model IH]; intros n; simpl; [lia|].
  rewrite IH, count_chain_spec, filter_app, length_app. lia.
Qed.

Lemma count_amino_acids_spec (s : Structure) :
  count_amino_acids s = Z.of_nat (length (filter standard (residues s))).
Proof.
  unfold count_amino_acids, residues.
  assert (Hgen : ∀ ms n,
    fold_left (λ count model, count_model model count) ms n
    = (n + Z.of_nat (length (filter standard (concat (concat ms)))))%Z).
  { induction ms as [|m ms IH]; intros n; simpl; [lia|].
    rewrite IH, count_model_spec, concat_app, filter_app, length_app. lia. }
  by rewrite Hgen.
Qed.

(** What makes [get_structure] raise: the request itself, a status other
    than 200, or the parser. *)
Lemma get_structure_request_raises `{Platform} src id w e :
  files w !! cache_path src id = None →
  remote w (pdb_url_format (lower id)) = inl e →
  ∃ w', get_structure src id w = (inl e, w').
Proof.
  intros Hmiss Hreq. unfold cache_path in Hmiss.
  unfold get_structure, bind, path_exists.
  rewrite Hmiss. rewrite bool_decide_eq_false_2 by (by intros [? ?]).
  simpl. rewrite Hreq. by eexists.
Qed.

Lemma get_structure_bad_status `{Platform} src id w response :
  files w !! cache_path src id = None →
  remote w (pdb_url_format (lower id)) = inr response →
  status_code response ≠ 200%Z →
  ∃ w', get_structure src id w
        = (inl (ValueError ("Failed to download PDB: " +:+ lower id)), w').
Proof.
  intros Hmiss Hreq Hst. unfold cache_path in Hmiss.
  unfold get_structure, bind, path_exists.
  rewrite Hmiss. rewrite bool_decide_eq_false_2 by (by intros [? ?]).
  simpl. rewrite Hreq.
  destruct (Z.eqb_spec (status_code response) 200) as [?|_]; [done|].
  simpl. by eexists.
Qed.

Lemma get_structure_parser_raises `{Platform} src id w content e :
  files w !! cache_path src id = Some content →
  pdb_parse (lower id) content = inl e →
  get_structure src id w = (inl e, w).
Proof.
  intros Hhit Hparse. unfold cache_path in Hhit.
  unfold get_structure, bind, path_exists, parser_get_structure, read_file, bind.
  rewrite Hhit. rewrite bool_decide_eq_true_2 by (by eexists).
  simpl. by rewrite Hhit, Hparse.
Qed.

(** C2: [validate_structure] never raises: it always returns a result; and
    when fetching or parsing raises an exception, in [get_structure] or in
    [get_function], the result is a failure whose reason is "Error: "
    followed by the message of the exception.  This covers a request that
    raises (network failure), an answer with a status other than 200, and a
    parser that raises on the file (malformed file). *)
Theorem validate_structure_never_raises `{Platform}
    (src : PDBDataSource) (id : string) (maxr : spec_float) (lo hi : Z)
    (w : World) :
  (∃ r w', validate_structure src id maxr lo hi w = (inr r, w')) ∧
  (∀ e w', get_structure src id w = (inl e, w') →
     validate_structure src id maxr lo hi w
     = (inr (false, Reason ("Error: " +:+ exn_str e)), w')) ∧
  (∀ s w1 e w2,
     get_structure src id w = (inr s, w1) →
     get_function src id w1 = (inl e, w2) →
     validate_structure src id maxr lo hi w
     = (inr (false, Reason ("Error: " +:+ exn_str e)), w2)) ∧
  (∀ e, files w !! cache_path src id = None →
     remote w (pdb_url_format (lower id)) = inl e →
     ∃ w', validate_structure src id maxr lo hi w
           = (inr (false, Reason ("Error: " +:+ exn_str e)), w')) ∧
  (∀ response, files w !! cache_path src id = None →
     remote w (pdb_url_format (lower id)) = inr response →
     status_code response ≠ 200%Z →
     ∃ w', validate_structure src id maxr lo hi w
           = (inr (false, Reason ("Error: Failed to download PDB: "
                                    +:+ lower id)), w')) ∧
  (∀ content e, files w !! cache_path src id = Some content →
     pdb_parse (lower id) content = inl e →
     validate_structure src id maxr lo hi w
     = (inr (false, Reason ("Error: " +:+ exn_str e)), w)).
Proof.
  split; [|split; [|split; [|split; [|split]]]].
  - destruct (get_structure src id w) as [[e|s] w1] eqn:Hs.
    + eexists _, _. by eapply validate_structure_structure_raises.
    + destruct (get_function src id w1) as [[e|fi] w2] eqn:Hf.
      * eexists _, _. by eapply validate_structure_function_raises.
      * eexists _, _. by eapply validate_structure_checks.
  - intros e w' Hs. by apply validate_structure_structure_raises.
  - intros s w1 e w2 Hs Hf. by eapply validate_structure_function_raises.
  - intros e Hmiss Hreq.
    destruct (get_structure_request_raises src id w e Hmiss Hreq) as [w' Hs].
    exists w'. by apply validate_structure_structure_raises.
  - intros response Hmiss Hreq Hst.
    destruct (get_structure_bad_status src id w response Hmiss Hreq Hst)
      as [w' Hs].
    exists w'. by rewrite (validate_structure_structure_raises _ _ _ _ _ _ _ _ Hs).
  - intros content e Hhit Hparse.
    apply validate_structure_structure_raises.
    by eapply get_structure_parser_raises.
Qed.

Lemma validate_structure_never_raises_witness :
  validate_structure Example.source "1ABC" float_2_5 50 300 Example.world_404
  = (inr (false, Reason "Error: Failed to download PDB: 1abc"),
     Example.world_404_once).
Proof.
  apply (proj1 (proj2 (validate_structure_never_raises Example.source "1ABC"
                         float_2_5 50 300 Example.world_404))
           (ValueError "Failed to download PDB: 1abc") Example.world_404_once).
  reflexivity.
Defined.

(** C5: once structure and function summary are obtained, a resolution equal
    to [max_resolution] passes the resolution check (the result is that of
    the length checks), a resolution greater than [max_resolution] fails with
    a reason that cites the value and the threshold, and a missing resolution
    fails whatever the threshold. *)
Theorem resolution_check_boundary `{Platform}
    (src : PDBDataSource) (id : string) (maxr : spec_float) (lo hi : Z)
    (w : World) (s : Structure) (w1 : World) (fi : FunctionInfo) (w2 : World) :
  get_structure src id w = (inr s, w1) →
  get_function src id w1 = (inr fi, w2) →
  (∀ r, fi_resolution fi = Some r → r = maxr ∨ SFeqb r maxr = true →
     validate_structure src id maxr lo hi w
     = (inr (check_length r (count_amino_acids s) lo hi), w2)) ∧
  (∀ r, fi_resolution fi = Some r → SFltb maxr r = true →
     validate_structure src id maxr lo hi w
     = (inr (false, Reason ("Resolution " +:+ float_repr r +:+ " > "
                                          +:+ float_repr maxr)), w2)) ∧
  (fi_resolution fi = None →
     validate_structure src id maxr lo hi w
     = (inr (false, Reason ("Resolution None > " +:+ float_repr maxr)), w2)).
Proof.
  intros Hs Hf.
  rewrite (validate_structure_checks _ _ maxr lo hi _ _ _ _ _ Hs Hf).
  unfold check_structure. split; [|split].
  - intros r -> Heq.
    assert (SFltb maxr r = false) as ->; [|done].
    destruct Heq as [->|Heq]; [apply SFltb_irrefl|by apply SFeqb_not_gt].
  - intros r -> Hgt. by rewrite Hgt.
  - by intros ->.
Qed.

Lemma resolution_check_boundary_witness :
  validate_structure Example.source "1ABC" float_2_5 3 5
    (Example.world_cached "e   W")
  = (inr (true, Metrics float_2_5 3 false), Example.world_cached "e   W").
Proof.
  apply (proj1 (resolution_check_boundary (H := Example.platform) Example.source "1ABC" float_2_5 3 5
                  (Example.world_cached "e   W")
                  (Example.structure_of "1abc" "e" "   W")
                  (Example.world_cached "e   W")
                  (Example.summary_of "1ABC" "e")
                  (Example.world_cached "e   W")
                  ltac:(vm_compute; reflexivity)
                  ltac:(vm_compute; reflexivity)) float_2_5);
    [reflexivity | by left].
Defined.

(** C6: for a structure that passes the resolution check, the count being
    that of the standard residues over all chains of all models: with
    [min_length] not above [max_length], a count equal to [min_length] or to
    [max_length] passes; a count of [min_length - 1] fails with a "Too short"
    reason; and, again with [min_length] not above [max_length], a count of
    [max_length + 1] fails with a "Too long" reason. *)
Theorem length_check_boundary `{Platform}
    (src : PDBDataSource) (id : string) (maxr : spec_float) (lo hi : Z)
    (w : World) (s : Structure) (w1 : World) (fi : FunctionInfo) (w2 : World)
    (r : spec_float) :
  get_structure src id w = (inr s, w1) →
  get_function src id w1 = (inr fi, w2) →
  fi_resolution fi = Some r →
  SFltb maxr r = false →
  let n := Z.of_nat (length (filter standard (residues s))) in
  count_amino_acids s = n ∧
  ((lo ≤ hi)%Z → n = lo ∨ n = hi →
     validate_structure src id maxr lo hi w
     = (inr (true, Metrics r n false), w2)) ∧
  (n = (lo - 1)%Z →
     validate_structure src id maxr lo hi w
     = (inr (false, Reason ("Too short: " +:+ str_int n +:+ " < "
                                          +:+ str_int lo)), w2)) ∧
  ((lo ≤ hi)%Z → n = (hi + 1)%Z →
     validate_structure src id maxr lo hi w
     = (inr (false, Reason ("Too long: " +:+ str_int n +:+ " > "
                                         +:+ str_int hi)), w2)).
Proof.
  intros Hs Hf Hr Hpass n.
  rewrite (validate_structure_checks _ _ maxr lo hi _ _ _ _ _ Hs Hf).
  unfold check_structure. rewrite Hr, Hpass.
  rewrite count_amino_acids_spec. fold n. unfold check_length.
  split; [done|]. split; [|split].
  - intros Hrange Hn.
    destruct (Z.ltb_spec n lo); [lia|].
    destruct (Z.gtb_spec n hi); [lia|]. done.
  - intros Hn.
    destruct (Z.ltb_spec n lo); [done|lia].
  - intros Hrange Hn.
    destruct (Z.ltb_spec n lo); [lia|].
    destruct (Z.gtb_spec n hi); [done|lia].
Qed.

Lemma length_check_boundary_witness :
  validate_structure Example.source "1ABC" float_2_5 3 5
    (Example.world_cached "a  W ")
  = (inr (true, Metrics Example.float_2_0 3 false), Example.world_cached "a  W ").
Proof.
  apply (proj1 (proj2 (length_check_boundary (H := Example.platform)
                  Example.source "1ABC" float_2_5 3 5
                  (Example.world_cached "a  W ")
                  (Example.structure_of "1abc" "a" "  W ")
                  (Example.world_cached "a  W ")
                  (Example.summary_of "1ABC" "a")
                  (Example.world_cached "a  W ")
                  Example.float_2_0
                  ltac:(vm_compute; reflexivity)
                  ltac:(vm_compute; reflexivity)
                  eq_refl eq_refl))).
  - done.
  - by left.
Defined.

(** ** Criteria *)

(** Flipping criteria fields that [add_protein] does not pass on changes
    nothing a caller can observe. *)
Lemma add_protein_reads_three_criteria `{Platform} self c c' id w :
  differ_only_in_require_ec c c' →
  observe (add_protein (with_criteria self c) id w)
  = observe (add_protein (with_criteria self c') id w).
Proof.
  intros (Hr & Hlo & Hhi). unfold add_protein. simpl.
  destruct (proteins self !! lower id) as [ev|]; [done|].
  unfold try_except, bind. rewrite Hr, Hlo, Hhi.
  destruct (ds_validate_structure _ _ _ _ _ w) as [[e|[v vi]] w1]; [done|].
  by destruct (ds_get_function _ _ w1) as [[e|fi] w2].
Qed.

(** The run used below: the file of 1abc is in the cache, with resolution
    2.5 and three standard residues. *)
Lemma example_pass_fail (c : SelectionCriteria) :
  pass_fail (add_protein (with_criteria Example.registry c) "1abc"
               (Example.world_cached "e   W"))
  = Some (negb (SFltb (max_resolution c) float_2_5)
          && negb (3 <? min_length c)%Z && negb (3 >? max_length c)%Z).
Proof.
  set (w := Example.world_cached "e   W").
  set (s := Example.structure_of "1abc" "e" "   W").
  set (fi := Example.summary_of "1abc" "e").
  assert (Hs : get_structure Example.source "1abc" w = (inr s, w))
    by (vm_compute; reflexivity).
  assert (Hf : get_function Example.source "1abc" w = (inr fi, w))
    by (vm_compute; reflexivity).
  destruct (check_structure s fi (max_resolution c) (min_length c) (max_length c))
    as [v vi] eqn:Hc.
  assert (Hv : validate_call (with_criteria Example.registry c) "1abc" w
               = (inr (v, vi), w)).
  { unfold validate_call. simpl.
    by rewrite (validate_structure_checks _ _ _ _ _ _ _ _ _ _ Hs Hf), Hc. }
  rewrite (add_protein_success (with_criteria Example.registry c) "1abc" w
             v vi w fi w eq_refl Hv Hf).
  unfold pass_fail. simpl. f_equal.
  unfold check_structure in Hc. simpl in Hc.
  destruct (SFltb (max_resolution c) float_2_5); [by injection Hc as <- _|].
  unfold check_length in Hc.
  change (count_amino_acids s) with 3%Z in Hc.
  destruct (3 <? min_length c)%Z; [by injection Hc as <- _|].
  destruct (3 >? max_length c)%Z; by injection Hc as <- _.
Qed.

(** C4, as stated, fails: the outcome does not depend on all four fields,
    since no call distinguishes two criteria records that differ only in
    [require_ec]. *)
Lemma require_ec_is_not_applied :
  ¬ (outcome_depends_on differ_only_in_max_resolution ∧
     outcome_depends_on differ_only_in_min_length ∧
     outcome_depends_on differ_only_in_max_length ∧
     outcome_depends_on differ_only_in_require_ec).
Proof.
  intros (_ & _ & _ & (P & self & c & c' & id & w & Hdiff & Hne)).
  apply Hne.
  pose proof (add_protein_reads_three_criteria self c c' id w Hdiff) as Hobs.
  unfold observe, pass_fail in *.
  destruct (add_protein (with_criteria self c) id w) as [[e|[ev s]] w1],
           (add_protein (with_criteria self c') id w) as [[e'|[ev' s']] w1'];
    simpl in *; congruence.
Qed.

(** C4, amended: the outcome of an evaluation depends on [max_resolution],
    on [min_length] and on [max_length], which [add_protein] passes to the
    validation of every new id; [require_ec] is stored with the criteria and
    never read: two criteria records that differ only in it give the same
    evaluation, the same registry dictionary and the same world. *)
Theorem three_criteria_are_applied :
  outcome_depends_on differ_only_in_max_resolution ∧
  outcome_depends_on differ_only_in_min_length ∧
  outcome_depends_on differ_only_in_max_length ∧
  ∀ (P : Platform) (self : ProteinDatasetRegistry) (c c' : SelectionCriteria)
    (id : string) (w : World),
    differ_only_in_require_ec c c' →
    observe (add_protein (with_criteria self c) id w)
    = observe (add_protein (with_criteria self c') id w).
Proof.
  split; [|split; [|split]].
  - exists Example.platform, Example.registry,
      (Example.criteria float_2_5 3 5), (Example.criteria Example.float_2_0 3 5),
      "1abc", (Example.world_cached "e   W").
    split; [done|]. by rewrite !example_pass_fail.
  - exists Example.platform, Example.registry,
      (Example.criteria float_2_5 3 5), (Example.criteria float_2_5 4 5),
      "1abc", (Example.world_cached "e   W").
    split; [done|]. by rewrite !example_pass_fail.
  - exists Example.platform, Example.registry,
      (Example.criteria float_2_5 3 5), (Example.criteria float_2_5 3 2),
      "1abc", (Example.world_cached "e   W").
    split; [done|]. by rewrite !example_pass_fail.
  - intros P self c c' id w Hdiff. by apply add_protein_reads_three_criteria.
Qed.

Lemma three_criteria_are_applied_witness :
  observe (add_protein (with_criteria Example.registry default_criteria) "1abc"
             Example.world_404)
  = observe (add_protein
               (with_criteria Example.registry
                  (set_require_ec default_criteria false)) "1abc"
               Example.world_404).
Proof.
  apply (proj2 (proj2 (proj2 three_criteria_are_applied))).
  repeat split.
Defined.

(** ** Persistence *)


Lemma load_registry_reads `{Platform} path w content :
  files w !! path = Some content →
  load_registry path w = (json_loads content, w).
Proof.
  intros Hfile. unfold load_registry, bind, path_exists, read_file.
  rewrite Hfile. rewrite bool_decide_eq_true_2 by (by eexists).
  simpl. rewrite Hfile. by destruct (json_loads content).
Qed.

Lemma load_registry_missing `{Platform} path w :
  files w !! path = None → load_registry path w = (inr ∅, w).
Proof.
  intros Hfile. unfold load_registry, bind, path_exists.
  rewrite Hfile. by rewrite bool_decide_eq_false_2 by (by intros [? ?]).
Qed.

(** ** Normalization of protein ids *)

Lemma add_protein_lower `{Platform} self id id' w :
  lower id = lower id' → add_protein self id w = add_protein self id' w.
Proof. intros Heq. unfold add_protein. by rewrite Heq. Qed.

Lemma get_structure_lower `{Platform} src id id' w :
  lower id = lower id' → get_structure src id w = get_structure src id' w.
Proof. intros Heq. unfold get_structure. by rewrite Heq. Qed.

(** [get_structure] writes at most the cache file of the lower-cased id. *)
Lemma get_structure_files `{Platform} src id w r w' :
  get_structure src id w = (r, w') →
  files w' = files w ∨ ∃ content, files w' = <[cache_path src id := content]> (files w).
Proof.
  unfold get_structure, cache_path, bind, path_exists, parser_get_structure,
    read_file, bind, requests_get, logger_info, write_file, raise, ret.
  destruct (bool_decide _); simpl.
  - destruct (files w !! _); intros [= <- <-]; by left.
  - destruct (remote w _) as [e|response]; simpl; [intros [= <- <-]; by left|].
    destruct (status_code response =? 200)%Z; simpl.
    + rewrite lookup_insert_eq. intros [= <- <-]. right. by eexists.
    + intros [= <- <-]. by left.
Qed.

(** ** Further properties of the two modules *)

(** [get_valid_proteins] is the part of the registry that met the criteria. *)
Lemma get_valid_proteins_spec self k ev :
  get_valid_proteins self !! k = Some ev
  ↔ proteins self !! k = Some ev ∧ meets_criteria ev = true.
Proof. unfold get_valid_proteins. by rewrite map_lookup_filter_Some. Qed.

Lemma generate_summary_report_counts self :
  let report := generate_summary_report self in
  (valid_proteins report + invalid_proteins report
   = total_proteins_evaluated report)%Z ∧
  (0 ≤ invalid_proteins report)%Z.
Proof.
  simpl. split; [lia|].
  assert (size (get_valid_proteins self) ≤ size (proteins self)); [|lia].
  apply map_subseteq_size, map_filter_subseteq.
Qed.

(** * Further properties: the data source *)

Import Scenario.

(** ** [get_structure], case by case *)

Lemma get_structure_hit `{Platform} src id w content :
  files w !! cache_path src id = Some content →
  get_structure src id w = (pdb_parse (lower id) content, w).
Proof.
  intros Hhit. unfold cache_path in Hhit.
  unfold get_structure, bind, path_exists, parser_get_structure, read_file, bind.
  rewrite Hhit. rewrite bool_decide_eq_true_2 by (by eexists).
  simpl. by rewrite Hhit.
Qed.

Lemma get_structure_download `{Platform} src id w response :
  files w !! cache_path src id = None →
  remote w (pdb_url_format (lower id)) = inr response →
  status_code response = 200%Z →
  get_structure src id w
  = (pdb_parse (lower id) (text response), after_download src id response w).
Proof.
  intros Hmiss Hreq Hst. unfold cache_path in Hmiss.
  unfold get_structure, bind, path_exists.
  rewrite Hmiss. rewrite bool_decide_eq_false_2 by (by intros [? ?]).
  simpl. rewrite Hreq, Hst. simpl.
  unfold parser_get_structure, bind, read_file. simpl.
  by rewrite lookup_insert_eq.
Qed.

Lemma get_structure_refused `{Platform} src id w response :
  files w !! cache_path src id = None →
  remote w (pdb_url_format (lower id)) = inr response →
  status_code response ≠ 200%Z →
  get_structure src id w
  = (inl (ValueError ("Failed to download PDB: " +:+ lower id)),
     after_request id w).
Proof.
  intros Hmiss Hreq Hst. unfold cache_path in Hmiss.
  unfold get_structure, bind, path_exists.
  rewrite Hmiss. rewrite bool_decide_eq_false_2 by (by intros [? ?]).
  simpl. rewrite Hreq.
  by destruct (Z.eqb_spec (status_code response) 200).
Qed.

Lemma get_structure_unreachable `{Platform} src id w e :
  files w !! cache_path src id = None →
  remote w (pdb_url_format (lower id)) = inl e →
  get_structure src id w = (inl e, after_request id w).
Proof.
  intros Hmiss Hreq. unfold cache_path in Hmiss.
  unfold get_structure, bind, path_exists.
  rewrite Hmiss. rewrite bool_decide_eq_false_2 by (by intros [? ?]).
  simpl. by rewrite Hreq.
Qed.

Lemma get_function_unfold `{Platform} src id w :
  get_function src id w
  = match get_structure src id w with
    | (inl e, w') => (inl e, w')
    | (inr s, w') => (inr (summary id s), w')
    end.
Proof. unfold get_function, bind. by destruct (get_structure src id w) as [[?|?] ?]. Qed.

(** ** [validate_structure], case by case *)

Lemma validate_structure_hit `{Platform} src id maxr lo hi w content :
  files w !! cache_path src id = Some content →
  validate_structure src id maxr lo hi w = (inr (verdict id content maxr lo hi), w).
Proof.
  intros Hhit. unfold validate_structure, try_except, bind, verdict.
  rewrite (get_structure_hit _ _ _ _ Hhit).
  destruct (pdb_parse (lower id) content) as [e|s] eqn:Hp; [done|].
  by rewrite get_function_unfold, (get_structure_hit _ _ _ _ Hhit), Hp.
Qed.

Lemma after_download_cached src id response w :
  files (after_download src id response w) !! cache_path src id
  = Some (text response).
Proof. apply lookup_insert_eq. Qed.

Lemma validate_structure_download `{Platform} src id maxr lo hi w response :
  files w !! cache_path src id = None →
  remote w (pdb_url_format (lower id)) = inr response →
  status_code response = 200%Z →
  validate_structure src id maxr lo hi w
  = (inr (verdict id (text response) maxr lo hi), after_download src id response w).
Proof.
  intros Hmiss Hreq Hst. unfold validate_structure, try_except, bind, verdict.
  rewrite (get_structure_download _ _ _ _ Hmiss Hreq Hst).
  destruct (pdb_parse (lower id) (text response)) as [e|s] eqn:Hp; [done|].
  by rewrite get_function_unfold,
    (get_structure_hit _ _ _ _ (after_download_cached _ _ _ _)), Hp.
Qed.

Lemma validate_structure_refused `{Platform} src id maxr lo hi w response :
  files w !! cache_path src id = None →
  remote w (pdb_url_format (lower id)) = inr response →
  status_code response ≠ 200%Z →
  validate_structure src id maxr lo hi w
  = (inr (false, Reason ("Error: Failed to download PDB: " +:+ lower id)),
     after_request id w).
Proof.
  intros Hmiss Hreq Hst. unfold validate_structure, try_except, bind.
  by rewrite (get_structure_refused _ _ _ _ Hmiss Hreq Hst).
Qed.

Lemma validate_structure_unreachable `{Platform} src id maxr lo hi w e :
  files w !! cache_path src id = None →
  remote w (pdb_url_format (lower id)) = inl e →
  validate_structure src id maxr lo hi w
  = (inr (false, Reason ("Error: " +:+ exn_str e)), after_request id w).
Proof.
  intros Hmiss Hreq. unfold validate_structure, try_except, bind.
  by rewrite (get_structure_unreachable _ _ _ _ Hmiss Hreq).
Qed.

(** ** The file cache *)

(** X1: when the file of an id is not in the cache and the server answers
    200, [get_structure] makes one request, writes the text of the answer to
    the cache file of the lower-cased id and hands it to the parser; a call
    that follows makes no request and changes nothing, and gives the same
    result, be it a structure or the exception the parser raised on the
    text. *)
Theorem download_is_cached `{Platform}
    (src : PDBDataSource) (id : string) (w : World) (response : Response) :
  files w !! cache_path src id = None →
  remote w (pdb_url_format (lower id)) = inr response →
  status_code response = 200%Z →
  let w1 := after_download src id response w in
  get_structure src id w = (pdb_parse (lower id) (text response), w1) ∧
  requests w1 = requests w ++ [pdb_url_format (lower id)] ∧
  files w1 = <[cache_path src id := text response]> (files w) ∧
  get_structure src id w1 = (pdb_parse (lower id) (text response), w1).
Proof.
  intros Hmiss Hreq Hst w1.
  split; [by apply get_structure_download|].
  split; [done|]. split; [done|].
  apply get_structure_hit, after_download_cached.
Qed.

Lemma download_is_cached_witness :
  let w1 := after_download Example.source "1ABC"
              {| status_code := 200; text := "e   W" |} (world_serving "e   W") in
  get_structure Example.source "1ABC" (world_serving "e   W")
    = (pdb_parse "1abc" "e   W", w1) ∧
  requests w1 = requests (world_serving "e   W") ++ [Example.url_1abc] ∧
  files w1 = <[ "raw/1abc.pdb" := "e   W" ]> (files (world_serving "e   W")) ∧
  get_structure Example.source "1ABC" w1 = (pdb_parse "1abc" "e   W", w1).
Proof.
  apply (download_is_cached (H := Example.platform) Example.source "1ABC"
           (world_serving "e   W") {| status_code := 200; text := "e   W" |});
    reflexivity.
Defined.

(** X2: a download that fails, because the request raises or because the
    status is not 200, raises to the caller of [get_structure] and writes no
    file: the cache is as before, and a call that follows asks the server
    again and fails in the same way. *)
Theorem failed_download_is_not_cached `{Platform}
    (src : PDBDataSource) (id : string) (w : World) (e : exn) :
  files w !! cache_path src id = None →
  remote w (pdb_url_format (lower id)) = inl e ∨
  (∃ response, remote w (pdb_url_format (lower id)) = inr response ∧
               status_code response ≠ 200%Z ∧
               e = ValueError ("Failed to download PDB: " +:+ lower id)) →
  let w1 := after_request id w in
  get_structure src id w = (inl e, w1) ∧
  files w1 = files w ∧
  requests w1 = requests w ++ [pdb_url_format (lower id)] ∧
  get_structure src id w1 = (inl e, after_request id w1).
Proof.
  intros Hmiss Hfail w1.
  assert (Hmiss1 : files w1 !! cache_path src id = None) by done.
  destruct Hfail as [Hreq|(response & Hreq & Hst & ->)].
  - split; [by apply get_structure_unreachable|]. split; [done|]. split; [done|].
    by apply get_structure_unreachable.
  - split; [by eapply get_structure_refused|]. split; [done|]. split; [done|].
    by eapply get_structure_refused.
Qed.

Lemma failed_download_is_not_cached_witness :
  let w1 := after_request "1ABC" Example.world_404 in
  get_structure Example.source "1ABC" Example.world_404
    = (inl (ValueError "Failed to download PDB: 1abc"), w1) ∧
  files w1 = files Example.world_404 ∧
  requests w1 = requests Example.world_404 ++ [Example.url_1abc] ∧
  get_structure Example.source "1ABC" w1
    = (inl (ValueError "Failed to download PDB: 1abc"), after_request "1ABC" w1).
Proof.
  apply (failed_download_is_not_cached (H := Example.platform) Example.source
           "1ABC" Example.world_404 (ValueError "Failed to download PDB: 1abc")).
  - reflexivity.
  - right. exists {| status_code := 404; text := "" |}. by repeat split.
Defined.

(** ** Validation *)

Lemma validate_structure_effects `{Platform} src id maxr lo hi w :
  ∃ r w',
    validate_structure src id maxr lo hi w = (inr r, w') ∧
    requests w'
    = requests w ++ (if bool_decide (is_Some (files w !! cache_path src id))
                     then [] else [pdb_url_format (lower id)]) ∧
    clock w' = clock w ∧
    ∀ path, path ≠ cache_path src id → files w' !! path = files w !! path.
Proof.
  destruct (files w !! cache_path src id) as [content|] eqn:Hc.
  - rewrite bool_decide_eq_true_2 by (by eexists).
    eexists _, _. split; [by apply validate_structure_hit|].
    by rewrite app_nil_r.
  - rewrite bool_decide_eq_false_2 by (by intros [? ?]).
    destruct (remote w (pdb_url_format (lower id))) as [e|response] eqn:Hreq.
    + eexists _, _. split; [by apply validate_structure_unreachable|]. done.
    + destruct (decide (status_code response = 200%Z)) as [Hst|Hst].
      * eexists _, _. split; [by apply validate_structure_download|].
        split; [done|]. split; [done|].
        intros path Hpath. simpl. by rewrite lookup_insert_ne.
      * eexists _, _. split; [by eapply validate_structure_refused|]. done.
Qed.

(** X3: [validate_structure] obtains the structure twice, once itself and
    once through [get_function], yet it makes one request when the file is
    not in the cache and none when it is; it never moves the clock and
    writes no file but the cache file of the id. *)
Theorem validate_structure_requests_once `{Platform}
    (src : PDBDataSource) (id : string) (maxr : spec_float) (lo hi : Z)
    (w : World) :
  ∃ r w',
    validate_structure src id maxr lo hi w = (inr r, w') ∧
    requests w'
    = requests w ++ (if bool_decide (is_Some (files w !! cache_path src id))
                     then [] else [pdb_url_format (lower id)]) ∧
    clock w' = clock w ∧
    ∀ path, path ≠ cache_path src id → files w' !! path = files w !! path.
Proof. apply validate_structure_effects. Qed.

(** The outcome of the checks is either a pass with the measured values or
    a failure with a reason. *)
Lemma check_structure_shape `{Platform} s fi maxr lo hi :
  match (check_structure s fi maxr lo hi).2 with
  | Metrics r n b =>
      (check_structure s fi maxr lo hi).1 = true ∧ b = false ∧
      fi_resolution fi = Some r ∧ SFltb maxr r = false ∧
      n = count_amino_acids s ∧ (lo ≤ n ≤ hi)%Z
  | Reason _ => (check_structure s fi maxr lo hi).1 = false
  end.
Proof.
  unfold check_structure. destruct (fi_resolution fi) as [r|]; [|done].
  destruct (SFltb maxr r) eqn:Hr; [done|]. unfold check_length.
  destruct (Z.ltb_spec (count_amino_acids s) lo); [done|].
  destruct (Z.gtb_spec (count_amino_acids s) hi); [done|].
  simpl. repeat split; try done; lia.
Qed.

(** X4: what [validate_structure] returns is well formed: the detail is a
    reason exactly when the structure did not pass; and when it passed, the
    detail holds a resolution that is not above [max_resolution], a count
    between [min_length] and [max_length], and the flag [has_ec_number]
    unset. *)
Theorem validate_structure_result_shape `{Platform}
    (src : PDBDataSource) (id : string) (maxr : spec_float) (lo hi : Z)
    (w : World) :
  ∃ passed info w',
    validate_structure src id maxr lo hi w = (inr (passed, info), w') ∧
    match info with
    | Metrics r n b =>
        passed = true ∧ b = false ∧ SFltb maxr r = false ∧ (lo ≤ n ≤ hi)%Z
    | Reason _ => passed = false
    end.
Proof.
  destruct (get_structure src id w) as [[e|s] w1] eqn:Hs.
  - exists false, (Reason ("Error: " +:+ exn_str e)), w1.
    split; [by apply validate_structure_structure_raises|done].
  - destruct (get_function src id w1) as [[e|fi] w2] eqn:Hf.
    + exists false, (Reason ("Error: " +:+ exn_str e)), w2.
      split; [by eapply validate_structure_function_raises|done].
    + pose proof (check_structure_shape s fi maxr lo hi) as Hshape.
      destruct (check_structure s fi maxr lo hi) as [passed info] eqn:Hc.
      exists passed, info, w2.
      split; [by rewrite (validate_structure_checks _ _ _ _ _ _ _ _ _ _ Hs Hf), Hc|].
      simpl in Hshape. destruct info as [?|r n b]; [done|].
      by destruct Hshape as (? & ? & _ & ? & _ & ?).
Qed.

(** X5: a NaN never fails the resolution check, as [resolution >
    max_resolution] is false when either side is a NaN: a structure whose
    resolution is a NaN, and any structure with a resolution when
    [max_resolution] is a NaN, goes on to the length checks. *)
Theorem nan_passes_resolution_check `{Platform}
    (src : PDBDataSource) (id : string) (maxr : spec_float) (lo hi : Z)
    (w : World) (s : Structure) (w1 : World) (fi : FunctionInfo) (w2 : World)
    (r : spec_float) :
  get_structure src id w = (inr s, w1) →
  get_function src id w1 = (inr fi, w2) →
  fi_resolution fi = Some r →
  r = S754_nan ∨ maxr = S754_nan →
  validate_structure src id maxr lo hi w
  = (inr (check_length r (count_amino_acids s) lo hi), w2).
Proof.
  intros Hs Hf Hr Hnan.
  rewrite (validate_structure_checks _ _ maxr lo hi _ _ _ _ _ Hs Hf).
  unfold check_structure. rewrite Hr.
  assert (SFltb maxr r = false) as ->; [|done].
  destruct Hnan as [-> | ->]; [by destruct maxr|done].
Qed.

Lemma nan_passes_resolution_check_witness :
  validate_structure Example.source "1ABC" S754_nan 3 5
    (Example.world_cached "h   W")
  = (inr (true, Metrics Example.float_3_0 3 false), Example.world_cached "h   W").
Proof.
  apply (nan_passes_resolution_check (H := Example.platform)
           Example.source "1ABC" S754_nan 3 5
           (Example.world_cached "h   W")
           (Example.structure_of "1abc" "h" "   W")
           (Example.world_cached "h   W")
           (Example.summary_of "1ABC" "h")
           (Example.world_cached "h   W")
           Example.float_3_0
           ltac:(vm_compute; reflexivity) ltac:(vm_compute; reflexivity)
           eq_refl).
  by right.
Defined.

Lemma validate_structure_lower `{Platform} src id id' maxr lo hi w :
  lower id = lower id' →
  validate_structure src id maxr lo hi w
  = validate_structure src id' maxr lo hi w.
Proof.
  intros Heq. unfold validate_structure, try_except, bind.
  rewrite (get_structure_lower src id id' w Heq).
  destruct (get_structure src id' w) as [[e|s] w1]; [done|].
  rewrite !get_function_unfold, (get_structure_lower src id id' w1 Heq).
  by destruct (get_structure src id' w1) as [[e|s'] w2].
Qed.

(** X6: validation does not depend on the case of the id, while the summary
    of [get_function] carries the id as it was given: for two spellings of
    one id, [validate_structure] gives the same result and the same world,
    and the two summaries differ in the field [id] only; the list of EC
    numbers is empty in every summary. *)
Theorem spelling_of_the_id `{Platform}
    (src : PDBDataSource) (id id' : string) (maxr : spec_float) (lo hi : Z)
    (w : World) :
  lower id = lower id' →
  validate_structure src id maxr lo hi w
  = validate_structure src id' maxr lo hi w ∧
  ∀ fi w', get_function src id w = (inr fi, w') →
    fi_id fi = id ∧ fi_ec_numbers fi = [] ∧
    ∃ s, get_structure src id w = (inr s, w') ∧
         fi = summary id s ∧
         get_function src id' w = (inr (summary id' s), w').
Proof.
  intros Heq. split; [by apply validate_structure_lower|].
  intros fi w'. rewrite !get_function_unfold.
  rewrite <- (get_structure_lower src id id' w Heq).
  destruct (get_structure src id w) as [[e|s] w1]; [done|].
  intros [= <- <-]. split; [done|]. split; [done|]. by exists s.
Qed.

Lemma spelling_of_the_id_witness :
  validate_structure Example.source "1ABC" float_2_5 3 5
    (Example.world_cached "e   W")
  = validate_structure Example.source "1abc" float_2_5 3 5
      (Example.world_cached "e   W") ∧
  ∀ fi w', get_function Example.source "1ABC" (Example.world_cached "e   W")
           = (inr fi, w') →
    fi_id fi = "1ABC" ∧ fi_ec_numbers fi = [] ∧
    ∃ s, get_structure Example.source "1ABC" (Example.world_cached "e   W")
         = (inr s, w') ∧
         fi = summary "1ABC" s ∧
         get_function Example.source "1abc" (Example.world_cached "e   W")
         = (inr (summary "1abc" s), w').
Proof.
  apply (spelling_of_the_id (H := Example.platform) Example.source
           "1ABC" "1abc" float_2_5 3 5 (Example.world_cached "e   W")).
  reflexivity.
Defined.

(** ** The counting loops *)

Lemma length_filter_all {A} (P : A → Prop) `{∀ x, Decision (P x)} (l : list A) :
  length (filter P l) = length l ↔ Forall P l.
Proof.
  induction l as [|x l IH]; [by rewrite filter_nil|].
  rewrite filter_cons, Forall_cons. pose proof (length_filter P l).
  destruct (decide (P x)); simpl.
  - rewrite <- IH. split; [intros; split; [done|lia]|intros [_ ?]; lia].
  - split; [lia|by intros [? _]].
Qed.

Lemma length_filter_none {A} (P : A → Prop) `{∀ x, Decision (P x)} (l : list A) :
  length (filter P l) = 0 ↔ Forall (λ x, ¬ P x) l.
Proof.
  induction l as [|x l IH]; [by rewrite filter_nil|].
  rewrite filter_cons, Forall_cons.
  destruct (decide (P x)); simpl.
  - split; [lia|by intros [? _]].
  - rewrite IH. split; [by intros|by intros [_ ?]].
Qed.

(** X7: the count of amino acids lies between 0 and the number of residues
    of the structure (over all chains of all models); it is the number of
    residues exactly when every residue has a blank hetero flag, and 0
    exactly when none has, as for a structure without residues. *)
Theorem count_amino_acids_bounds (s : Structure) :
  (0 ≤ count_amino_acids s ≤ Z.of_nat (length (residues s)))%Z ∧
  (count_amino_acids s = Z.of_nat (length (residues s))
   ↔ Forall standard (residues s)) ∧
  (count_amino_acids s = 0%Z ↔ Forall (λ r, ¬ standard r) (residues s)).
Proof.
  rewrite count_amino_acids_spec.
  pose proof (length_filter standard (residues s)) as Hle.
  split; [|split].
  - lia.
  - rewrite <- (length_filter_all standard (residues s)). split; lia.
  - rewrite <- (length_filter_none standard (residues s)). split; lia.
Qed.

(** ** The factory *)

(** X17: [get_data_source] knows the type "pdb" only, spelled in lower
    case: for any other type it raises a [ValueError] that names the type
    and leaves the world as it is, without a log record. *)
Theorem get_data_source_unknown_type
    (source_type : string) (cache_dir : option string) (w : World) :
  source_type ≠ "pdb" →
  get_data_source source_type cache_dir w
  = (inl (ValueError ("Unknown data source type: " +:+ source_type)), w).
Proof.
  intros Hne. unfold get_data_source.
  by destruct (String.eqb_spec source_type "pdb").
Qed.

Lemma get_data_source_unknown_type_witness :
  get_data_source "PDB" None Example.world_404
  = (inl (ValueError "Unknown data source type: PDB"), Example.world_404).
Proof. by apply (get_data_source_unknown_type "PDB" None Example.world_404). Defined.

(** * Further properties: the registry *)

(** A call either finds the id recorded, and changes nothing, or binds the
    lower-cased id to the evaluation it returns. *)
Lemma add_protein_registry `{Platform} self id w :
  ∃ ev self' w',
    add_protein self id w = (inr (ev, self'), w') ∧
    ((proteins self !! lower id = Some ev ∧ self' = self ∧ w' = w) ∨
     (proteins self !! lower id = None ∧ self' = set_protein self (lower id) ev)).
Proof.
  destruct (proteins self !! lower id) as [ev|] eqn:Hin.
  - exists ev, self, w. split; [by apply add_protein_cached|by left].
  - destruct (add_protein_new self id w Hin) as (ev & w' & _ & Hadd).
    exists ev, (set_protein self (lower id) ev), w'. split; [done|by right].
Qed.

Lemma get_valid_proteins_lookup self k :
  get_valid_proteins self !! k
  = match proteins self !! k with
    | Some ev => if meets_criteria ev then Some ev else None
    | None => None
    end.
Proof.
  unfold get_valid_proteins. apply option_eq. intros ev'.
  rewrite map_lookup_filter_Some. simpl.
  destruct (proteins self !! k) as [ev|]; [|by split; [intros [? _]|]].
  destruct (meets_criteria ev) eqn:Hm.
  - split; [by intros [? _]|]. intros [= <-]. by split.
  - split; [|done]. intros [[= <-] ?]. congruence.
Qed.

Lemma load_registry_result `{Platform} path w :
  load_registry path w
  = (match files w !! path with
     | Some content => json_loads content
     | None => inr ∅
     end, w).
Proof.
  destruct (files w !! path) as [content|] eqn:Hfile.
  - by apply load_registry_reads.
  - by apply load_registry_missing.
Qed.

(** ** Construction *)

(** X8: on a first run, when the registry file does not exist, the
    constructor succeeds with an empty registry, the criteria 2.5, 50, 300
    and the data source given, or the PDB data source on the cache directory
    "../data/raw" when none is given; it creates no file; nothing is valid
    and the report counts no protein. *)
Theorem init_without_file `{Platform}
    (source' : option DataSource) (path : string) (w : World) :
  files w !! path = None →
  ∃ fresh w',
    init source' path w = (inr fresh, w') ∧
    proteins fresh = ∅ ∧
    registry_file fresh = path ∧
    selection_criteria fresh = default_criteria ∧
    data_source fresh = match source' with
                        | Some d => d
                        | None => pdb_source {| cache_dir := "../data/raw" |}
                        end ∧
    files w' = files w ∧
    get_valid_proteins fresh = ∅ ∧
    total_proteins_evaluated (generate_summary_report fresh) = 0%Z.
Proof.
  intros Hmiss. destruct source' as [d|].
  - eexists _, w. unfold init, bind, ret.
    rewrite (load_registry_missing path w Hmiss). split; [done|].
    simpl. do 5 (split; [done|]). split; [|done].
    apply map_filter_empty.
  - eexists _, _.
    unfold init, bind, ret, get_data_source, PDBDataSource_init, bind, ret,
      logger_info. simpl.
    rewrite load_registry_missing by done. split; [done|].
    simpl. do 5 (split; [done|]). split; [|done].
    apply map_filter_empty.
Qed.

Lemma init_without_file_witness :
  ∃ fresh w',
    init None "registry.json" Example.world_404 = (inr fresh, w') ∧
    proteins fresh = ∅ ∧
    registry_file fresh = "registry.json" ∧
    selection_criteria fresh = default_criteria ∧
    data_source fresh = pdb_source {| cache_dir := "../data/raw" |} ∧
    files w' = files Example.world_404 ∧
    get_valid_proteins fresh = ∅ ∧
    total_proteins_evaluated (generate_summary_report fresh) = 0%Z.
Proof.
  apply (init_without_file (H := Example.platform) None "registry.json"
           Example.world_404).
  reflexivity.
Defined.

(** X9: when the registry file exists and the JSON library raises on its
    text, the constructor raises that exception: no registry is built, and
    the file is left as it is. *)
Theorem init_with_unreadable_file `{Platform}
    (source' : option DataSource) (path : string) (w : World)
    (content : string) (e : exn) :
  files w !! path = Some content →
  json_loads content = inl e →
  ∃ w', init source' path w = (inl e, w') ∧ files w' = files w.
Proof.
  intros Hfile Hbad. destruct source' as [d|].
  - exists w. unfold init, bind, ret.
    by rewrite (load_registry_reads path w content Hfile), Hbad.
  - eexists.
    unfold init, bind, ret, get_data_source, PDBDataSource_init, bind, ret,
      logger_info. simpl.
    rewrite (load_registry_reads path _ content) by done. by rewrite Hbad.
Qed.

Lemma init_with_unreadable_file_witness :
  ∃ w', init None "registry.json" (world_with_registry_file "(")
        = (inl (Exception "JSONDecodeError" "Expecting value"), w') ∧
        files w' = files (world_with_registry_file "(").
Proof.
  apply (init_with_unreadable_file (H := Example.platform) None "registry.json"
           (world_with_registry_file "(") "(").
  - reflexivity.
  - vm_compute. reflexivity.
Defined.

(** ** Sequences of calls *)

(** X10: the registry only grows: after any sequence of calls of
    [add_protein], every record that was in the registry is still there
    unchanged, the keys are the old keys and the lower-cased ids, each
    evaluation returned is the record the final registry holds for its id,
    and the file and the criteria of the registry are as before. *)
Theorem add_proteins_append_only `{Platform} (ids : list string) :
  ∀ (self : ProteinDatasetRegistry) (w : World),
  ∃ evs self' w',
    add_proteins self ids w = (inr (evs, self'), w') ∧
    (∀ k ev, proteins self !! k = Some ev → proteins self' !! k = Some ev) ∧
    dom (proteins self') = dom (proteins self) ∪ list_to_set (lower <$> ids) ∧
    Forall2 (λ id ev, proteins self' !! lower id = Some ev) ids evs ∧
    registry_file self' = registry_file self ∧
    selection_criteria self' = selection_criteria self.
Proof.
  induction ids as [|id ids IH]; intros self w; simpl.
  - exists [], self, w. split; [done|]. split; [done|].
    split; [set_solver|]. by repeat split.
  - destruct (add_protein_registry self id w)
      as (ev & self1 & w1 & Hadd & Hcase).
    destruct (IH self1 w1)
      as (evs & self2 & w2 & Hrest & Hkeep & Hdom & Hret & Hfile & Hcrit).
    exists (ev :: evs), self2, w2. unfold bind. rewrite Hadd, Hrest.
    split; [done|].
    assert (Hev : proteins self1 !! lower id = Some ev).
    { destruct Hcase as [(Hin & -> & _)|(_ & ->)]; [done|].
      apply lookup_insert_eq. }
    assert (Hkeep1 : ∀ k ev0, proteins self !! k = Some ev0 →
                              proteins self1 !! k = Some ev0).
    { destruct Hcase as [(_ & -> & _)|(Hnew & ->)]; [done|].
      intros k ev0 Hk. simpl. rewrite lookup_insert_ne; [done|].
      intros <-. congruence. }
    assert (Hdom1 : dom (proteins self1) = dom (proteins self) ∪ {[lower id]}).
    { destruct Hcase as [(Hin & -> & _)|(_ & ->)].
      - apply (elem_of_dom_2 (D := gset string)) in Hin. set_solver.
      - simpl. rewrite dom_insert_L. set_solver. }
    split; [by intros k ev0 Hk; apply Hkeep, Hkeep1|].
    split; [rewrite Hdom, Hdom1; set_solver|].
    split; [constructor; [by apply Hkeep|done]|].
    destruct Hcase as [(_ & -> & _)|(_ & ->)]; by rewrite Hfile, Hcrit.
Qed.

(** ** Reading the registry after a call *)

(** X11: after a call of [add_protein], the id is among the valid proteins
    exactly when the evaluation returned met the criteria, with that
    evaluation as its record; for every other key the valid proteins are as
    before. *)
Theorem get_valid_proteins_after_add `{Platform}
    (self : ProteinDatasetRegistry) (id : string) (w : World) :
  ∃ ev self' w',
    add_protein self id w = (inr (ev, self'), w') ∧
    get_valid_proteins self' !! lower id
    = (if meets_criteria ev then Some ev else None) ∧
    ∀ k, k ≠ lower id →
         get_valid_proteins self' !! k = get_valid_proteins self !! k.
Proof.
  destruct (add_protein_total self id w) as (ev & self' & w' & Hadd & Hst & Hoth).
  exists ev, self', w'. split; [done|].
  split; [by rewrite get_valid_proteins_lookup, Hst|].
  intros k Hk. by rewrite !get_valid_proteins_lookup, Hoth.
Qed.

Lemma size_get_valid_insert self k ev :
  proteins self !! k = None →
  Z.of_nat (size (get_valid_proteins (set_protein self k ev)))
  = (Z.of_nat (size (get_valid_proteins self)) + valid_count ev)%Z.
Proof.
  intros Hnew. unfold get_valid_proteins, valid_count. simpl.
  rewrite map_filter_insert. simpl.
  destruct (meets_criteria ev) eqn:Hm.
  - rewrite decide_True by done.
    rewrite map_size_insert_None; [lia|].
    apply map_lookup_filter_None. by left.
  - rewrite decide_False by done. rewrite delete_id by done. lia.
Qed.

(** X12: the report follows the calls of [add_protein]: a call on a new id
    raises the total by one, and the number of valid proteins by one when the
    evaluation met the criteria, the number of invalid ones by one when it
    did not; a call on an id already recorded leaves the report as it is;
    and the three counts are never negative, with valid plus invalid equal
    to the total. *)
Theorem report_after_add `{Platform}
    (self : ProteinDatasetRegistry) (id : string) (w : World) :
  ∃ ev self' w',
    add_protein self id w = (inr (ev, self'), w') ∧
    let before := generate_summary_report self in
    let after := generate_summary_report self' in
    (proteins self !! lower id = None →
       total_proteins_evaluated after = (total_proteins_evaluated before + 1)%Z ∧
       valid_proteins after = (valid_proteins before + valid_count ev)%Z ∧
       invalid_proteins after
       = (invalid_proteins before + (1 - valid_count ev))%Z) ∧
    (is_Some (proteins self !! lower id) → after = before) ∧
    (valid_proteins after + invalid_proteins after
     = total_proteins_evaluated after)%Z ∧
    (0 ≤ valid_proteins after)%Z ∧ (0 ≤ invalid_proteins after)%Z.
Proof.
  destruct (add_protein_registry self id w) as (ev & self' & w' & Hadd & Hcase).
  exists ev, self', w'. split; [done|]. simpl.
  assert (size (get_valid_proteins self') ≤ size (proteins self'))
    by apply map_subseteq_size, map_filter_subseteq.
  split; [|split; [|split; [lia|split; lia]]].
  - intros Hnew. destruct Hcase as [(Hin & _)|(_ & ->)]; [congruence|].
    rewrite size_get_valid_insert by done. simpl.
    rewrite map_size_insert_None by done. lia.
  - intros [ev0 Hin]. destruct Hcase as [(_ & -> & _)|(Hnew & _)]; [done|].
    congruence.
Qed.

(** ** The registry on the PDB data source *)

Lemma cache_path_lower src id : cache_path src (lower id) = cache_path src id.
Proof. unfold cache_path. by rewrite lower_idemp. Qed.

(** The two calls [add_protein] makes, on the PDB data source: both see the
    lower-cased id, which names the same cache file and the same URL. *)
Lemma validate_call_pdb `{Platform} self src id w :
  data_source self = pdb_source src →
  validate_call self (lower id) w
  = validate_structure src id (max_resolution (selection_criteria self))
      (min_length (selection_criteria self))
      (max_length (selection_criteria self)) w.
Proof.
  intros Hsrc. unfold validate_call. rewrite Hsrc. simpl.
  apply validate_structure_lower, lower_idemp.
Qed.

Lemma get_function_call_pdb `{Platform} self src id w :
  data_source self = pdb_source src →
  ds_get_function (data_source self) (lower id) w
  = match get_structure src id w with
    | (inl e, w') => (inl e, w')
    | (inr s, w') => (inr (summary (lower id) s), w')
    end.
Proof.
  intros Hsrc. rewrite Hsrc. simpl.
  by rewrite get_function_unfold,
    (get_structure_lower src (lower id) id w (lower_idemp id)).
Qed.

Lemma get_function_files `{Platform} src id w r w' :
  get_function src id w = (r, w') →
  ∀ path, path ≠ cache_path src id → files w' !! path = files w !! path.
Proof.
  rewrite get_function_unfold.
  destruct (get_structure src id w) as [[e|s] w1] eqn:Hs; intros [= <- <-];
    intros path Hpath;
    (destruct (get_structure_files _ _ _ _ _ Hs) as [->|[content ->]];
     [done|by rewrite lookup_insert_ne]).
Qed.

(** X13: [add_protein] does not write the registry file: with the PDB data
    source, and a registry file that is not the cache file of the id, the
    file is after the call what it was before, so that loading it gives what
    it gave before the call; what was added is on disk only after
    [save_registry]. *)
Theorem add_protein_does_not_persist `{Platform}
    (self : ProteinDatasetRegistry) (src : PDBDataSource) (id : string)
    (w : World) :
  data_source self = pdb_source src →
  registry_file self ≠ cache_path src id →
  ∃ ev self' w',
    add_protein self id w = (inr (ev, self'), w') ∧
    files w' !! registry_file self = files w !! registry_file self ∧
    load_registry (registry_file self) w'
    = ((load_registry (registry_file self) w).1, w').
Proof.
  intros Hsrc Hpath.
  assert (Hload : ∀ w', files w' !! registry_file self
                        = files w !! registry_file self →
            load_registry (registry_file self) w'
            = ((load_registry (registry_file self) w).1, w')).
  { intros w' Hw'. rewrite !load_registry_result. simpl. by rewrite Hw'. }
  destruct (add_protein_registry self id w)
    as (ev & self' & w' & Hadd & [(_ & _ & ->)|(Hnew & _)]).
  { exists ev, self', w. split; [done|]. split; [done|]. by apply Hload. }
  destruct (add_protein_new self id w Hnew) as (ev1 & w1 & Hout & Hadd1).
  exists ev1, (set_protein self (lower id) ev1), w1. split; [done|].
  assert (files w1 !! registry_file self = files w !! registry_file self) as Hf;
    [|split; [done|by apply Hload]].
  destruct (validate_structure_effects src id
              (max_resolution (selection_criteria self))
              (min_length (selection_criteria self))
              (max_length (selection_criteria self)) w)
    as (r & w0 & Hv & _ & _ & Hfiles).
  assert (Hfun : ∀ wa r' wb,
            ds_get_function (data_source self) (lower id) wa = (r', wb) →
            files wb !! registry_file self = files wa !! registry_file self).
  { intros wa r' wb. rewrite Hsrc. simpl. intros Hf'.
    apply (get_function_files _ _ _ _ _ Hf'). by rewrite cache_path_lower. }
  destruct Hout as [is_valid vi w2 fi w3 Hv' Hf'|e w2 Hv'|r' w2 e w3 Hv' Hf'];
    rewrite (validate_call_pdb _ _ _ _ Hsrc), Hv in Hv'; simplify_eq; simpl.
  - rewrite (Hfun _ _ _ Hf'). by apply Hfiles.
  - rewrite (Hfun _ _ _ Hf'). by apply Hfiles.
Qed.

Lemma add_protein_does_not_persist_witness :
  ∃ ev self' w',
    add_protein Example.registry "1ABC" (world_serving "e   W")
      = (inr (ev, self'), w') ∧
    files w' !! "registry.json" = files (world_serving "e   W") !! "registry.json" ∧
    load_registry "registry.json" w'
    = ((load_registry "registry.json" (world_serving "e   W")).1, w').
Proof.
  apply (add_protein_does_not_persist (H := Example.platform) Example.registry
           Example.source "1ABC" (world_serving "e   W")).
  - reflexivity.
  - by vm_compute.
Defined.

(** X14: with the PDB data source, the evaluation of a new id whose file is
    in the cache and is accepted by the parser needs no network: it stores
    the verdict of the checks and the summary of the structure, and changes
    nothing in the world but the clock, which moves by the one tick of the
    time stamp. *)
Theorem cached_evaluation_is_offline `{Platform}
    (self : ProteinDatasetRegistry) (src : PDBDataSource) (id : string)
    (w : World) (content : string) (s : Structure) :
  data_source self = pdb_source src →
  proteins self !! lower id = None →
  files w !! cache_path src id = Some content →
  pdb_parse (lower id) content = inr s →
  let v := check_structure s (summary (lower id) s)
             (max_resolution (selection_criteria self))
             (min_length (selection_criteria self))
             (max_length (selection_criteria self)) in
  let ev := success_evaluation (lower id) v.1 v.2 (summary (lower id) s)
              (clock w) in
  add_protein self id w = (inr (ev, set_protein self (lower id) ev), tick w).
Proof.
  intros Hsrc Hnew Hhit Hparse v ev.
  apply (add_protein_success self id w v.1 v.2 w (summary (lower id) s) w Hnew).
  - rewrite (validate_call_pdb _ _ _ _ Hsrc).
    rewrite (validate_structure_lower src id (lower id)) by (by rewrite lower_idemp).
    rewrite (validate_structure_hit _ (lower id) _ _ _ _ content)
      by (by rewrite cache_path_lower).
    unfold verdict. rewrite lower_idemp, Hparse. unfold v.
    by destruct (check_structure _ _ _ _ _).
  - by rewrite (get_function_call_pdb _ _ _ _ Hsrc),
      (get_structure_hit _ _ _ _ Hhit), Hparse.
Qed.

Lemma cached_evaluation_is_offline_witness :
  let v := check_structure (Example.structure_of "1abc" "e" "   W")
             (summary "1abc" (Example.structure_of "1abc" "e" "   W"))
             float_2_5 50 300 in
  let ev := success_evaluation "1abc" v.1 v.2
              (summary "1abc" (Example.structure_of "1abc" "e" "   W")) 7 in
  add_protein Example.registry "1ABC" (Example.world_cached "e   W")
  = (inr (ev, set_protein Example.registry "1abc" ev),
     tick (Example.world_cached "e   W")).
Proof.
  apply (cached_evaluation_is_offline (H := Example.platform) Example.registry
           Example.source "1ABC" (Example.world_cached "e   W") "e   W"
           (Example.structure_of "1abc" "e" "   W"));
    reflexivity.
Defined.

(** X15: with the PDB data source, a download that fails for a new id is
    stored as an error record, not as a failed validation: the validation
    step turns the failure into a reason, the function-summary step asks the
    server again and raises, and the record stored has [meets_criteria =
    false] and the message of the exception as [error]; the server was asked
    twice, no file was written, and the id is not among the valid
    proteins. *)
Theorem failed_download_is_recorded_as_error `{Platform}
    (self : ProteinDatasetRegistry) (src : PDBDataSource) (id : string)
    (w : World) (e : exn) :
  data_source self = pdb_source src →
  proteins self !! lower id = None →
  files w !! cache_path src id = None →
  remote w (pdb_url_format (lower id)) = inl e ∨
  (∃ response, remote w (pdb_url_format (lower id)) = inr response ∧
               status_code response ≠ 200%Z ∧
               e = ValueError ("Failed to download PDB: " +:+ lower id)) →
  let ev := error_evaluation (lower id) e (clock w) in
  let w' := tick (after_request id (after_request id w)) in
  add_protein self id w = (inr (ev, set_protein self (lower id) ev), w') ∧
  files w' = files w ∧
  requests w'
  = requests w ++ [pdb_url_format (lower id); pdb_url_format (lower id)] ∧
  get_valid_proteins (set_protein self (lower id) ev) !! lower id = None.
Proof.
  intros Hsrc Hnew Hmiss Hfail ev w'.
  assert (Hs : ∀ wa, files wa = files w → remote wa = remote w →
                get_structure src id wa = (inl e, after_request id wa)).
  { intros wa Hfa Hra.
    destruct Hfail as [Hreq|(response & Hreq & Hst & ->)].
    - apply get_structure_unreachable; by rewrite ?Hfa, ?Hra.
    - eapply get_structure_refused; by rewrite ?Hfa, ?Hra. }
  split; [|split; [done|split]].
  - eapply (add_protein_function_raises self id w _ (after_request id w) e
              (after_request id (after_request id w)) Hnew).
    + rewrite (validate_call_pdb _ _ _ _ Hsrc).
      by apply validate_structure_structure_raises, Hs.
    + by rewrite (get_function_call_pdb _ _ _ _ Hsrc), Hs.
  - by simpl; rewrite <- app_assoc.
  - rewrite get_valid_proteins_lookup. simpl. by rewrite lookup_insert_eq.
Qed.

Lemma failed_download_is_recorded_as_error_witness :
  let ev := error_evaluation "1abc" (ValueError "Failed to download PDB: 1abc") 0 in
  let w' := tick (after_request "1ABC" (after_request "1ABC" Example.world_404)) in
  add_protein Example.registry "1ABC" Example.world_404
    = (inr (ev, set_protein Example.registry "1abc" ev), w') ∧
  files w' = files Example.world_404 ∧
  requests w' = requests Example.world_404 ++ [Example.url_1abc; Example.url_1abc] ∧
  get_valid_proteins (set_protein Example.registry "1abc" ev) !! "1abc" = None.
Proof.
  apply (failed_download_is_recorded_as_error (H := Example.platform)
           Example.registry Example.source "1ABC" Example.world_404
           (ValueError "Failed to download PDB: 1abc")); try reflexivity.
  right. exists {| status_code := 404; text := "" |}. by repeat split.
Defined.

(** X16: with the PDB data source, a file the parser rejects is stored as an
    error record with the message of the parser, whether the file was in the
    cache or has just been downloaded; a downloaded file stays in the cache
    although the parser rejected it. *)
Theorem rejected_file_is_recorded_as_error `{Platform}
    (self : ProteinDatasetRegistry) (src : PDBDataSource) (id : string)
    (w : World) (e : exn) :
  data_source self = pdb_source src →
  proteins self !! lower id = None →
  let ev := error_evaluation (lower id) e (clock w) in
  (∀ content,
     files w !! cache_path src id = Some content →
     pdb_parse (lower id) content = inl e →
     add_protein self id w = (inr (ev, set_protein self (lower id) ev), tick w)) ∧
  (∀ response,
     files w !! cache_path src id = None →
     remote w (pdb_url_format (lower id)) = inr response →
     status_code response = 200%Z →
     pdb_parse (lower id) (text response) = inl e →
     let w' := tick (after_download src id response w) in
     add_protein self id w = (inr (ev, set_protein self (lower id) ev), w') ∧
     files w' !! cache_path src id = Some (text response)).
Proof.
  intros Hsrc Hnew ev. split.
  - intros content Hhit Hparse.
    assert (Hs : get_structure src id w = (inl e, w))
      by (by rewrite (get_structure_hit _ _ _ _ Hhit), Hparse).
    eapply (add_protein_function_raises self id w _ w e w Hnew).
    + rewrite (validate_call_pdb _ _ _ _ Hsrc).
      by apply validate_structure_structure_raises.
    + by rewrite (get_function_call_pdb _ _ _ _ Hsrc), Hs.
  - intros response Hmiss Hreq Hst Hparse w'.
    split; [|apply lookup_insert_eq].
    eapply (add_protein_function_raises self id w _
              (after_download src id response w) e
              (after_download src id response w) Hnew).
    + rewrite (validate_call_pdb _ _ _ _ Hsrc).
      apply validate_structure_structure_raises.
      by rewrite (get_structure_download _ _ _ _ Hmiss Hreq Hst), Hparse.
    + by rewrite (get_function_call_pdb _ _ _ _ Hsrc),
        (get_structure_hit _ _ _ _ (after_download_cached _ _ _ _)), Hparse.
Qed.

Lemma rejected_file_is_recorded_as_error_witness :
  let ev := error_evaluation "1abc"
              (Exception "PDBConstructionException" "Empty file.") 0 in
  let w' := tick (after_download Example.source "1ABC"
                    {| status_code := 200; text := "" |} (world_serving "")) in
  add_protein Example.registry "1ABC" (world_serving "")
    = (inr (ev, set_protein Example.registry "1abc" ev), w') ∧
  files w' !! "raw/1abc.pdb" = Some "".
Proof.
  apply (proj2 (rejected_file_is_recorded_as_error (H := Example.platform)
                  Example.registry Example.source "1ABC" (world_serving "")
                  (Exception "PDBConstructionException" "Empty file.")
                  eq_refl eq_refl)
           {| status_code := 200; text := "" |});
    reflexivity.
Defined.

(** * Reloading a saved registry *)

Import Equality.

(** ** The comparison of a value with a copy of itself *)









(** ** Saving, then constructing a fresh registry *)


(** The run of the example: on a platform whose parser reports a NaN as
    resolution, the file of 1abc passes validation and its record, which
    holds the NaN, is stored. *)
Lemma nan_record_is_stored :
  add_protein (H := Reload.nan_platform) Reload.nan_registry "1ABC"
    (Example.world_cached "x")
  = (inr (Reload.nan_evaluation, Reload.registry_with_nan),
     tick (Example.world_cached "x")).
Proof.
  apply (add_protein_success (H := Reload.nan_platform) Reload.nan_registry
           "1ABC" (Example.world_cached "x") true (Metrics S754_nan 60 false)
           (Example.world_cached "x")
           (summary "1abc" (Reload.nan_structure "1abc"))
           (Example.world_cached "x"));
    vm_compute; reflexivity.
Qed.




(** * Normalization of protein ids *)

(** A call looks the id up under its lower-casing and, when it is not
    recorded, stores the record under its lower-casing; it creates no other
    key. *)
Lemma add_protein_key `{Platform} self id w :
  ∃ ev self' w',
    add_protein self id w = (inr (ev, self'), w') ∧
    proteins self' !! lower id = Some ev ∧
    dom (proteins self') = dom (proteins self) ∪ {[lower id]} ∧
    (∀ ev0, proteins self !! lower id = Some ev0 →
            ev = ev0 ∧ self' = self ∧ w' = w) ∧
    (proteins self !! lower id = None →
     protein_id ev = lower id ∧ self' = set_protein self (lower id) ev).
Proof.
  destruct (proteins self !! lower id) as [ev|] eqn:Hin.
  - exists ev, self, w. split; [by apply add_protein_cached|].
    split; [done|]. split.
    { apply (elem_of_dom_2 (D := gset string)) in Hin. set_solver. }
    split; [by intros ev0 [= <-]|done].
  - destruct (add_protein_new self id w Hin) as (ev & w' & Hout & Hadd).
    exists ev, (set_protein self (lower id) ev), w'. split; [done|].
    split; [apply lookup_insert_eq|]. split.
    { simpl. rewrite dom_insert_L. set_solver. }
    split; [done|]. intros _. split; [|done]. by destruct Hout.
Qed.

Lemma add_proteins_domain `{Platform} ids : ∀ self w,
  ∃ evs self' w',
    add_proteins self ids w = (inr (evs, self'), w') ∧
    dom (proteins self') = dom (proteins self) ∪ list_to_set (lower <$> ids).
Proof.
  induction ids as [|id ids IH]; intros self w; simpl.
  - exists [], self, w. split; [done|]. set_solver.
  - destruct (add_protein_key self id w) as (ev & self1 & w1 & Hadd & _ & Hdom1 & _).
    destruct (IH self1 w1) as (evs & self2 & w2 & Hrest & Hdom).
    exists (ev :: evs), self2, w2. unfold bind. rewrite Hadd, Hrest.
    split; [done|]. rewrite Hdom, Hdom1. set_solver.
Qed.

(** The keys are all in lower case after the calls exactly when they were
    before. *)
Lemma keys_lowercase_after (m m' : gmap string Evaluation) (ids : list string) :
  dom m' = dom m ∪ list_to_set (lower <$> ids) →
  Equality.keys_lowercase m' ↔ Equality.keys_lowercase m.
Proof.
  intros Hdom. unfold Equality.keys_lowercase. rewrite Hdom. split.
  - intros Hall k Hk. apply Hall. set_solver.
  - intros Hall k [Hk|Hk]%elem_of_union; [by apply Hall|].
    apply elem_of_list_to_set, list_elem_of_fmap in Hk as (id & -> & _).
    apply no_uppercase_lower.
Qed.

(** The run of the example: the constructor reads a registry file whose one
    record is stored under "1LYZ". *)
Lemma upper_case_key_is_loaded :
  init (Some (pdb_source Example.source)) "registry.json"
    Reload.world_with_upper_case_key
  = (inr (Equality.constructed (Some (pdb_source Example.source))
            "registry.json" Reload.upper_case_records),
     Reload.world_with_upper_case_key).
Proof.
  unfold init, bind, ret.
  rewrite (load_registry_reads "registry.json" Reload.world_with_upper_case_key
             (Example.write_registry Reload.upper_case_records))
    by reflexivity.
  assert (json_loads (Example.write_registry Reload.upper_case_records)
          = inr Reload.upper_case_records) as -> by (vm_compute; reflexivity).
  reflexivity.
Qed.

(** C9, as stated, fails: a registry file may hold a key in upper case, the
    constructor takes the keys of the file as they are, and after a call of
    [add_protein] with that very id the registry still holds the key in upper
    case. *)
Lemma loaded_keys_are_not_normalized :
  ¬ (∀ (P : Platform) (source' : option DataSource) (path : string) (w : World)
       fresh w1 (ids : list string) evs self' w',
       init source' path w = (inr fresh, w1) →
       add_proteins fresh ids w1 = (inr (evs, self'), w') →
       Equality.keys_lowercase (proteins self')).
Proof.
  intros Hall.
  destruct (add_proteins_domain ["1LYZ"]
              (Equality.constructed (Some (pdb_source Example.source))
                 "registry.json" Reload.upper_case_records)
              Reload.world_with_upper_case_key)
    as (evs & self' & w' & Hadd & Hdom).
  pose proof (Hall _ _ _ _ _ _ _ _ _ _ upper_case_key_is_loaded Hadd "1LYZ") as Hk.
  assert ("1LYZ" ∈ dom (proteins self')) as Hin.
  { rewrite Hdom. apply elem_of_union_l. simpl.
    unfold Reload.upper_case_records. rewrite dom_singleton_L. set_solver. }
  specialize (Hk Hin). vm_compute in Hk. discriminate.
Qed.

(** C9, amended: the id is lower-cased before it is looked up, stored or
    turned into a cache path.  [add_protein] returns the record found under
    the lower-cased id when there is one, and otherwise stores the new
    record, whose [protein_id] is the lower-cased id, under the lower-cased
    id; it creates no other key; two ids with the same lower-casing, as
    "1LYZ" and "1lyz", give the same call.  [get_structure] reads and writes
    the cache file named by the lower-cased id and requests the URL of the
    lower-cased id.  After any sequence of calls the keys are the keys
    there were and the lower-cased ids: the keys that were in the registry
    are kept as they are, so that all keys are in lower case after the calls
    exactly when they were before, as they are for a registry that starts
    empty. *)
Theorem protein_id_normalized `{Platform} :
  (∀ self id w, ∃ ev self' w',
     add_protein self id w = (inr (ev, self'), w') ∧
     proteins self' !! lower id = Some ev ∧
     dom (proteins self') = dom (proteins self) ∪ {[lower id]} ∧
     (∀ ev0, proteins self !! lower id = Some ev0 →
             ev = ev0 ∧ self' = self ∧ w' = w) ∧
     (proteins self !! lower id = None →
      protein_id ev = lower id ∧ self' = set_protein self (lower id) ev)) ∧
  (∀ self id id' w,
     lower id = lower id' → add_protein self id w = add_protein self id' w) ∧
  (∀ self w, add_protein self "1LYZ" w = add_protein self "1lyz" w) ∧
  (∀ src id id' w,
     lower id = lower id' → get_structure src id w = get_structure src id' w) ∧
  (∀ src id w content,
     files w !! path_join (cache_dir src) (lower id +:+ ".pdb") = Some content →
     get_structure src id w = (pdb_parse (lower id) content, w)) ∧
  (∀ src id w response,
     files w !! path_join (cache_dir src) (lower id +:+ ".pdb") = None →
     remote w (pdb_url_format (lower id)) = inr response →
     status_code response = 200%Z →
     ∃ w', get_structure src id w = (pdb_parse (lower id) (text response), w') ∧
           files w' = <[path_join (cache_dir src) (lower id +:+ ".pdb")
                        := text response]> (files w) ∧
           requests w' = requests w ++ [pdb_url_format (lower id)]) ∧
  (∀ self ids w, ∃ evs self' w',
     add_proteins self ids w = (inr (evs, self'), w') ∧
     dom (proteins self') = dom (proteins self) ∪ list_to_set (lower <$> ids) ∧
     (Equality.keys_lowercase (proteins self')
      ↔ Equality.keys_lowercase (proteins self)) ∧
     (proteins self = ∅ → Equality.keys_lowercase (proteins self'))).
Proof.
  split; [|split; [|split; [|split; [|split; [|split]]]]].
  - intros self id w. apply add_protein_key.
  - intros self id id' w. apply add_protein_lower.
  - intros self w. by apply add_protein_lower.
  - intros src id id' w. apply get_structure_lower.
  - intros src id w content Hhit. by apply get_structure_hit.
  - intros src id w response Hmiss Hreq Hst.
    exists (after_download src id response w).
    split; [by apply get_structure_download|done].
  - intros self ids w.
    destruct (add_proteins_domain ids self w) as (evs & self' & w' & Hadd & Hdom).
    exists evs, self', w'. split; [done|]. split; [done|].
    pose proof (keys_lowercase_after _ _ _ Hdom) as Hiff.
    split; [done|]. intros Hempty. apply Hiff.
    intros k Hk. rewrite Hempty, dom_empty_L in Hk. set_solver.
Qed.

Lemma protein_id_normalized_witness :
  ∃ ev self' w',
    add_protein Example.registry "1ABC" Example.world_404 = (inr (ev, self'), w') ∧
    proteins self' !! "1abc" = Some ev ∧
    dom (proteins self') = dom (proteins Example.registry) ∪ {["1abc"]} ∧
    (∀ ev0, proteins Example.registry !! "1abc" = Some ev0 →
            ev = ev0 ∧ self' = Example.registry ∧ w' = Example.world_404) ∧
    (proteins Example.registry !! "1abc" = None →
     protein_id ev = "1abc" ∧ self' = set_protein Example.registry "1abc" ev).
Proof.
  apply (proj1 (protein_id_normalized (H := Example.platform))
           Example.registry "1ABC" Example.world_404).
Defined.
